(** * Verification of the dynamic ETL pipeline and its interactive configurator

    Shallow embedding of [src/etl_classes/dynamic_etl.py] and
    [src/pipeline_config_system.py].

    - A Python [str] is a sequence of Unicode code points: [list N].
    - [print], [input], [open] and the calls into the external modifier
      classes are effects: they are recorded, in program order, in an event
      trace that is threaded through every operation together with the
      remaining lines of standard input.
    - A Python [dict] is an association list in insertion order. *)

From Stdlib Require Import List Arith NArith Bool Lia String Ascii Permutation.
Import ListNotations.

Set Implicit Arguments.

(* ================================================================== *)
(** * Python strings *)
(* ================================================================== *)

Module PyStr.

Local Open Scope N_scope.

Definition char := N.
Definition pystr := list char.

(** A literal of the source, written as a Rocq string (ASCII only). *)
Fixpoint py (s : string) : pystr :=
  match s with
  | EmptyString => []
  | String a r => N_of_ascii a :: py r
  end.

Definition char_eqb (a b : char) : bool := N.eqb a b.

Fixpoint eqb (s t : pystr) : bool :=
  match s, t with
  | [], [] => true
  | a :: s', b :: t' => char_eqb a b && eqb s' t'
  | _, _ => false
  end.

(** [str.isspace] on one code point: the table of CPython's
    [_PyUnicode_IsWhitespace]. *)
Definition isspace (c : char) : bool :=
  ((9 <=? c) && (c <=? 13)) || ((28 <=? c) && (c <=? 32))
  || (c =? 133) || (c =? 160) || (c =? 5760)
  || ((8192 <=? c) && (c <=? 8202))
  || (c =? 8232) || (c =? 8233) || (c =? 8239) || (c =? 8287)
  || (c =? 12288).

(** [s.split()]: maximal runs of non-whitespace code points.  [cur] is the
    token being read, most recent code point first. *)
Fixpoint split_from (cur : pystr) (s : pystr) : list pystr :=
  match s with
  | [] => match cur with [] => [] | _ => [rev cur] end
  | c :: r =>
      if isspace c
      then match cur with
           | [] => split_from [] r
           | _ => rev cur :: split_from [] r
           end
      else split_from (c :: cur) r
  end.

Definition split (s : pystr) : list pystr := split_from [] s.

Fixpoint lstrip (s : pystr) : pystr :=
  match s with
  | [] => []
  | c :: r => if isspace c then lstrip r else s
  end.

Definition rstrip (s : pystr) : pystr := rev (lstrip (rev s)).

Definition strip (s : pystr) : pystr := rstrip (lstrip s).

(** [s.split(sep)] for a separator of one code point: every occurrence
    separates, empty pieces are kept. *)
Fixpoint split_on (sep : char) (s : pystr) : list pystr :=
  match s with
  | [] => [[]]
  | c :: r =>
      if char_eqb c sep then [] :: split_on sep r
      else match split_on sep r with
           | h :: t => (c :: h) :: t
           | [] => [[c]]
           end
  end.

(** [sep.join(pieces)]. *)
Fixpoint join (sep : pystr) (pieces : list pystr) : pystr :=
  match pieces with
  | [] => []
  | [p] => p
  | p :: rest => p ++ sep ++ join sep rest
  end.

(** ** [str.lower]

    ASCII letters are lowered here.  The lowercase mapping of a code point
    outside ASCII comes from the Unicode character database, which is not
    part of the program: it is the parameter [unicode_lower], given the
    whole string and the index because the mapping of capital sigma depends
    on its context. *)
Section Lower.

Variable unicode_lower : pystr -> nat -> pystr.

Definition ascii_lower (c : char) : char :=
  if (65 <=? c) && (c <=? 90) then c + 32 else c.

Fixpoint lower_from (whole : pystr) (i : nat) (rest : pystr) : pystr :=
  match rest with
  | [] => []
  | c :: r =>
      (if c <? 128 then [ascii_lower c] else unicode_lower whole i)
      ++ lower_from whole (S i) r
  end.

Definition lower (s : pystr) : pystr := lower_from s 0%nat s.

End Lower.

End PyStr.

Import PyStr.

(* ================================================================== *)
(** * Data model *)
(* ================================================================== *)

(** What the document-parsing layer yields: paragraphs with a text and a
    named style. *)
Record Style := { name : pystr }.
Record Paragraph := { text : pystr; style : Style }.
Record Document := { paragraphs : list Paragraph }.

(** Modelled from the spec: the flag classes of [data_classes/flag.py] are
    not among the sources.  They are groups of boolean attributes. *)
Record ParagraphFlags := {
  remove_title_page : bool;
  remove_bibliography : bool;
  remove_headings : bool;
  remove_tables_and_figures : bool
}.

Record TextFlags := {
  remove_stop_words : bool;
  apply_lemmatization : bool;
  apply_stemming : bool;
  remove_punctuation : bool
}.

Record FlagContainer := {
  paragraph_flags : ParagraphFlags;
  text_flags : TextFlags
}.

(** Modelled from the spec: the enumeration of
    [data_classes/etl_pipelines.py], with the three members the
    configurator names. *)
Inductive PipelineType := DEFAULT_DYNAMIC | CUSTOM_DYNAMIC | DEMO.

(** The dictionaries built by the transformation:
    [{"text": .., "style": ..}], [{"filename": .., "corpora": [..]}] and
    [{"config": .., "documents": [..]}]. *)
Record ParagraphObj := { obj_text : pystr; obj_style : pystr }.
Record DocumentObj := { filename : pystr; corpora : list ParagraphObj }.
Record CorporaTotal := { config : FlagContainer; documents : list DocumentObj }.

(** The external modifier classes, as interfaces of pure functions. *)
Module ParagraphModifier.
Class t := {
  remove_title : list Paragraph -> list Paragraph * list Paragraph;
  remove_bibliography : list Paragraph -> list Paragraph * list Paragraph;
  remove_headings : list Paragraph -> list Paragraph * list Paragraph;
  remove_tables_figures : list Paragraph -> list Paragraph * list Paragraph
}.
End ParagraphModifier.

Module TextModifier.
Class t := {
  remove_stop_words : pystr -> list pystr -> pystr;
  apply_lemmatization : pystr -> pystr;
  apply_stemming : pystr -> pystr;
  remove_punctuation : pystr -> pystr
}.
End TextModifier.

(* ================================================================== *)
(** * Effects *)
(* ================================================================== *)

Inductive paragraph_rule := RemoveTitle | RemoveBibliography | RemoveHeadings | RemoveTablesFigures.
Inductive text_transform := RemoveStopWords | ApplyLemmatization | ApplyStemming | RemovePunctuation.

(** What the program does to the outside, in program order. *)
Inductive event :=
| EvPrint (line : pystr)                                  (* print(line) *)
| EvInput (prompt : pystr)                                (* input(prompt) *)
| EvOpenRead (path : pystr)                               (* open(path, 'r') *)
| EvOpenWrite (path : pystr) (content : pystr)            (* open(path, "w"), f.write(content) *)
| EvOpenTruncate (path : pystr)                           (* open(path, "w"), then the write raised *)
| EvReadDocument (file : pystr)                           (* a source handed to the parsing layer *)
| EvParagraphCall (rule : paragraph_rule) (arg : list Paragraph)
| EvTextCall (transform : text_transform) (arg : pystr).

Inductive exn :=
| EOFError                       (* input() at the end of standard input *)
| KeyError (key : pystr)         (* d[key] for an absent key *)
| ResourceError (path : pystr)   (* open or json.loads raised *)
| ExtractionError (file : pystr) (* a document could not be parsed *)
| OSError (path : pystr)         (* open(path, "w") or the write raised *).

Inductive result (A : Type) :=
| Ok (a : A)
| Raise (e : exn).
Arguments Ok {A} a.
Arguments Raise {A} e.

Record World := { stdin : list pystr; trace : list event }.

Definition M (A : Type) : Type := World -> result A * World.

Definition ret {A} (a : A) : M A := fun w => (Ok a, w).

Definition bind {A B} (c : M A) (k : A -> M B) : M B :=
  fun w => match c w with
           | (Ok a, w') => k a w'
           | (Raise e, w') => (Raise e, w')
           end.

Definition raise {A} (e : exn) : M A := fun w => (Raise e, w).

(** The world after some more events. *)
Definition log (w : World) (es : list event) : World :=
  {| stdin := stdin w; trace := trace w ++ es |}.

Definition emit (e : event) : M unit := fun w => (Ok tt, log w [e]).

Declare Scope etl_scope.
Delimit Scope etl_scope with etl.
Notation "x <- c ;; k" := (bind c (fun x => k))
  (at level 61, c at next level, right associativity) : etl_scope.
Notation "c ;; k" := (bind c (fun _ => k))
  (at level 61, right associativity) : etl_scope.
Local Open Scope etl_scope.

Definition print (line : pystr) : M unit := emit (EvPrint line).

Definition nl : pystr := [10%N].

(* ================================================================== *)
(** * [DynamicETL] *)
(* ================================================================== *)

(** What becomes of writing a content to a path: the file is opened and
    written in full, or [open] raises and nothing is touched, or the file
    is opened, which empties it, and the write raises. *)
Inductive write_outcome := Written | OpenRaised | WriteRaised.

(** The base class, of which [DynamicETL] inherits [_extract];
    [base_etl_class.py] is not among the sources, so the method is a
    member of an interface. *)
Module BaseETL.
Class t := { _extract : pystr -> M (list (Document * pystr)) }.
End BaseETL.

Section DynamicETL.

Context {PM : ParagraphModifier.t} {TM : TextModifier.t} {Base : BaseETL.t}.

(** The file system as the run sees it: [read_json path] is the value of
    [loads(file.read())] for [open(path, 'r')], or [None] when either step
    raises. *)
Variable read_json : pystr -> option (list pystr).

(** [jsonpickle.encode(data, unpicklable=False)]. *)
Variable jsonpickle_encode : CorporaTotal -> pystr.

(** The file system on the side of the destination: what becomes of
    [open(path, "w")] followed by [f.write(content)]. *)
Variable file_write : pystr -> pystr -> write_outcome.

(** Calls into the modifier classes: the call is recorded, the interface's
    function gives the value. *)
Definition paragraph_modifier (rule : paragraph_rule) (arg : list Paragraph)
  : list Paragraph * list Paragraph :=
  match rule with
  | RemoveTitle => ParagraphModifier.remove_title arg
  | RemoveBibliography => ParagraphModifier.remove_bibliography arg
  | RemoveHeadings => ParagraphModifier.remove_headings arg
  | RemoveTablesFigures => ParagraphModifier.remove_tables_figures arg
  end.

Definition text_modifier (transform : text_transform) (stopwords : list pystr)
  (arg : pystr) : pystr :=
  match transform with
  | RemoveStopWords => TextModifier.remove_stop_words arg stopwords
  | ApplyLemmatization => TextModifier.apply_lemmatization arg
  | ApplyStemming => TextModifier.apply_stemming arg
  | RemovePunctuation => TextModifier.remove_punctuation arg
  end.

Definition call_paragraph (rule : paragraph_rule) (arg : list Paragraph)
  : M (list Paragraph * list Paragraph) :=
  emit (EvParagraphCall rule arg) ;;
  ret (paragraph_modifier rule arg).

Definition call_text (transform : text_transform) (stopwords : list pystr) (arg : pystr)
  : M pystr :=
  emit (EvTextCall transform arg) ;;
  ret (text_modifier transform stopwords arg).

(** [with open(path, 'r') as file: loads(file.read())] *)
Definition open_loads (path : pystr) : M (list pystr) :=
  emit (EvOpenRead path) ;;
  match read_json path with
  | Some v => ret v
  | None => raise (ResourceError path)
  end.

(** ** [__remove_paragraphs_from_doc] *)
Definition __remove_paragraphs_from_doc
  (doc_paragraphs : list Paragraph) (paragraph_flags : ParagraphFlags)
  : M (list Paragraph * list Paragraph) :=
  let removed_paragraphs := [] in
  st1 <- (if remove_title_page paragraph_flags then
            print (py "removing titlepage") ;;
            r <- call_paragraph RemoveTitle doc_paragraphs ;;
            ret (fst r, removed_paragraphs ++ snd r)
          else ret (doc_paragraphs, removed_paragraphs)) ;;
  st2 <- (if remove_bibliography paragraph_flags then
            print (py "removing bib") ;;
            r <- call_paragraph RemoveBibliography (fst st1) ;;
            ret (fst r, snd st1 ++ snd r)
          else ret st1) ;;
  st3 <- (if remove_headings paragraph_flags then
            r <- call_paragraph RemoveHeadings (fst st2) ;;
            ret (fst r, snd st2 ++ snd r)
          else ret st2) ;;
  st4 <- (if remove_tables_and_figures paragraph_flags then
            r <- call_paragraph RemoveTablesFigures (fst st3) ;;
            ret (fst r, snd st3 ++ snd r)
          else ret st3) ;;
  ret st4.

(** ** [__transform_paragraphs_from_doc] *)

(** One of the four guarded steps on [current_paragraph_obj]. *)
Definition text_step (enabled : bool) (notice : string) (transform : text_transform)
  (stopwords : list pystr) (current_paragraph_obj : ParagraphObj) : M ParagraphObj :=
  if enabled then
    print (py notice) ;;
    t <- call_text transform stopwords (obj_text current_paragraph_obj) ;;
    ret {| obj_text := t; obj_style := obj_style current_paragraph_obj |}
  else ret current_paragraph_obj.

(** The body of [for paragraph in doc_paragraphs], with the list built so
    far. *)
Fixpoint transform_loop (text_flags : TextFlags) (stopwords : list pystr)
  (doc_paragraphs : list Paragraph) (total_doc_corpora : list ParagraphObj)
  : M (list ParagraphObj) :=
  match doc_paragraphs with
  | [] => ret total_doc_corpora
  | paragraph :: rest =>
      if PyStr.eqb (text paragraph) [] || PyStr.eqb (text paragraph) (py " ")
         || PyStr.eqb (text paragraph) nl
      then transform_loop text_flags stopwords rest total_doc_corpora
      else if Nat.ltb (List.length (split (text paragraph))) 3
      then transform_loop text_flags stopwords rest total_doc_corpora
      else
        let current_paragraph_obj :=
          {| obj_text := strip (text paragraph); obj_style := name (style paragraph) |} in
        o1 <- text_step (remove_stop_words text_flags) "removing stop words"
                RemoveStopWords stopwords current_paragraph_obj ;;
        o2 <- text_step (apply_lemmatization text_flags) "applying lemmatization"
                ApplyLemmatization stopwords o1 ;;
        o3 <- text_step (apply_stemming text_flags) "applying stemming"
                ApplyStemming stopwords o2 ;;
        o4 <- text_step (remove_punctuation text_flags) "removing punctuation"
                RemovePunctuation stopwords o3 ;;
        transform_loop text_flags stopwords rest (total_doc_corpora ++ [o4])
  end.

(** [stopwords] is bound only when the flag is set, and read only then;
    the empty list stands for the unbound name. *)
Definition __transform_paragraphs_from_doc
  (doc_paragraphs : list Paragraph) (text_flags : TextFlags) : M (list ParagraphObj) :=
  let total_doc_corpora := [] in
  stopwords <- (if remove_stop_words text_flags
                then open_loads (py "stopwords.json")
                else ret []) ;;
  transform_loop text_flags stopwords doc_paragraphs total_doc_corpora.

(** ** [_transform] *)
Fixpoint transform_docs (flags : FlagContainer) (data : list (Document * pystr))
  (docs : list DocumentObj) : M (list DocumentObj) :=
  match data with
  | [] => ret docs
  | (current_doc, filename) :: rest =>
      let current_doc_corpora := [] in
      r <- __remove_paragraphs_from_doc (paragraphs current_doc) (paragraph_flags flags) ;;
      let kept_paragraphs := fst r in
      c <- __transform_paragraphs_from_doc kept_paragraphs (text_flags flags) ;;
      let current_doc_obj :=
        {| filename := filename; corpora := current_doc_corpora ++ c |} in
      transform_docs flags rest (docs ++ [current_doc_obj])
  end.

Definition _transform (data : list (Document * pystr)) (flags : FlagContainer)
  : M CorporaTotal :=
  docs <- transform_docs flags data [] ;;
  ret {| config := flags; documents := docs |}.

(** ** [_load] *)
Definition _load (dest_str : pystr) (data : CorporaTotal) : M unit :=
  let json_str := jsonpickle_encode data in
  match file_write dest_str json_str with
  | Written => emit (EvOpenWrite dest_str json_str)
  | OpenRaised => raise (OSError dest_str)
  | WriteRaised => emit (EvOpenTruncate dest_str) ;; raise (OSError dest_str)
  end.

(** ** [_execute_etl] *)
Definition _execute_etl (data_dir dest_dir : pystr) (flags : FlagContainer) : M unit :=
  extracted_data <- BaseETL._extract data_dir ;;
  transformed_data <- _transform extracted_data flags ;;
  _load dest_dir transformed_data.

End DynamicETL.

(** ** [_extract]

    Modelled from the spec: [BaseETL._extract] ([base_etl_class.py]) is not
    among the sources.  Extraction yields one (document, file name) pair
    per source, in order, and a source that cannot be parsed is fatal. *)
Section Extraction.

(** The file names found under a data directory, and the parsing layer:
    [None] when a file cannot be parsed. *)
Variable list_sources : pystr -> list pystr.
Variable parse_docx : pystr -> pystr -> option Document.

Fixpoint extract_files (data_dir : pystr) (files : list pystr)
  : M (list (Document * pystr)) :=
  match files with
  | [] => ret []
  | file :: rest =>
      emit (EvReadDocument file) ;;
      match parse_docx data_dir file with
      | None => raise (ExtractionError file)
      | Some doc =>
          more <- extract_files data_dir rest ;;
          ret ((doc, file) :: more)
      end
  end.

Definition BaseETL_spec : BaseETL.t :=
  {| BaseETL._extract := fun data_dir => extract_files data_dir (list_sources data_dir) |}.

End Extraction.


(* ================================================================== *)
(** * [PipelineConfigSystem] *)
(* ================================================================== *)

(** A [dict] from flag names to booleans, in insertion order. *)
Definition dict := list (pystr * bool).

Definition keys (d : dict) : list pystr := map fst d.

(** [d[key]]: [None] stands for [KeyError]. *)
Fixpoint dict_get (d : dict) (key : pystr) : option bool :=
  match d with
  | [] => None
  | (k, v) :: rest => if PyStr.eqb k key then Some v else dict_get rest key
  end.

(** [d[key] = value]: an existing key keeps its place, a new one goes last. *)
Fixpoint dict_set (d : dict) (key : pystr) (value : bool) : dict :=
  match d with
  | [] => [(key, value)]
  | (k, v) :: rest =>
      if PyStr.eqb k key then (k, value) :: rest
      else (k, v) :: dict_set rest key value
  end.

Definition tab : pystr := [9%N].

Section PipelineConfigSystem.

Variable unicode_lower : pystr -> nat -> pystr.

(** ** [ask_for_pipeline]

    One round of [while True] per line of input; [input] raises [EOFError]
    when standard input is exhausted. *)
Definition pipeline_menu : list event :=
  [ EvPrint (repeat 10%N 100);
    EvPrint (py "--- Which ETL pipeline would you like to use? (1/2/3) ---");
    EvPrint (py "1." ++ tab ++ py " Dynamic ETL with default settings" ++ nl
             ++ py "2." ++ tab ++ py " Dynamic ETL with custom settings" ++ nl
             ++ py "3." ++ tab ++ py " Demo ETL");
    EvInput (py "Pipeline: ") ].

Fixpoint ask_for_pipeline_from (lines : list pystr) (tr : list event)
  : result PipelineType * World :=
  match lines with
  | [] => (Raise EOFError, {| stdin := []; trace := tr ++ pipeline_menu |})
  | answer :: rest =>
      if PyStr.eqb answer (py "1") then
        (Ok DEFAULT_DYNAMIC,
         {| stdin := rest;
            trace := tr ++ pipeline_menu
                     ++ [EvPrint (py "Using default parameters for ETL...")] |})
      else if PyStr.eqb answer (py "2") then
        (Ok CUSTOM_DYNAMIC, {| stdin := rest; trace := tr ++ pipeline_menu |})
      else if PyStr.eqb answer (py "3") then
        (Ok DEMO, {| stdin := rest; trace := tr ++ pipeline_menu |})
      else
        ask_for_pipeline_from rest
          (tr ++ pipeline_menu ++ [EvPrint (py "Invalid answer.")])
  end.

Definition ask_for_pipeline : M PipelineType :=
  fun w => ask_for_pipeline_from (stdin w) (trace w).

(** ** [configure_flag] *)
Definition invalid_yn : pystr := py "Invalid answer. Please answer with 'y' or 'n'.".

Fixpoint configure_flag_from (question : pystr) (lines : list pystr) (tr : list event)
  : result bool * World :=
  let prompt := EvInput (question ++ py " (y/n) ") in
  match lines with
  | [] => (Raise EOFError, {| stdin := []; trace := tr ++ [prompt] |})
  | user_answer :: rest =>
      if PyStr.eqb (lower unicode_lower user_answer) (py "y") then
        (Ok true, {| stdin := rest; trace := tr ++ [prompt] |})
      else if PyStr.eqb (lower unicode_lower user_answer) (py "n") then
        (Ok false, {| stdin := rest; trace := tr ++ [prompt] |})
      else
        configure_flag_from question rest (tr ++ [prompt; EvPrint invalid_yn])
  end.

Definition configure_flag (question : pystr) : M bool :=
  fun w => configure_flag_from question (stdin w) (trace w).

(** ** [configure_from_flags] *)
Definition default_question : pystr := py "Do you want to ".

Definition specific_question (key : pystr) : pystr :=
  let split_key := split_on 95%N key in
  let cleaned_key := rstrip (join (py " ") split_key) in
  default_question ++ cleaned_key ++ py "?".

(** The loop [for key in flag_dict]: the keys are those of the dictionary
    at entry, the dictionary is updated in place. *)
Fixpoint configure_keys (ks : list pystr) (flag_dict : dict) : M dict :=
  match ks with
  | [] => ret flag_dict
  | key :: rest =>
      let ask :=
        answer <- configure_flag (specific_question key) ;;
        configure_keys rest (dict_set flag_dict key answer) in
      if PyStr.eqb key (py "apply_lemmatization") then
        match dict_get flag_dict (py "apply_stemming") with
        | None => raise (KeyError (py "apply_stemming"))
        | Some true => configure_keys rest (dict_set flag_dict key false)
        | Some false => ask
        end
      else ask
  end.

Definition configure_from_flags (flag_dict : dict) : M dict :=
  configure_keys (keys flag_dict) flag_dict.

(** ** [configure_dynamic_etl] *)

(** [json.loads(json.dumps(flags.__dict__))]: the attributes in the order
    of [__dict__].  For the text flags that order is decided in
    [data_classes/flag.py], which is not among the sources: it is the
    parameter [text_flag_order], a list of the names of the four text
    flags. *)
Variable text_flag_order : list pystr.

Definition text_flag_value (f : TextFlags) (key : pystr) : bool :=
  if PyStr.eqb key (py "remove_stop_words") then remove_stop_words f
  else if PyStr.eqb key (py "apply_lemmatization") then apply_lemmatization f
  else if PyStr.eqb key (py "apply_stemming") then apply_stemming f
  else if PyStr.eqb key (py "remove_punctuation") then remove_punctuation f
  else false.

Definition text_flags_dict (f : TextFlags) : dict :=
  map (fun key => (key, text_flag_value f key)) text_flag_order.

Definition paragraph_flags_dict (f : ParagraphFlags) : dict :=
  [ (py "remove_title_page", remove_title_page f);
    (py "remove_bibliography", remove_bibliography f);
    (py "remove_headings", remove_headings f);
    (py "remove_tables_and_figures", remove_tables_and_figures f) ].

Definition kwarg (d : dict) (key : string) : bool :=
  match dict_get d (py key) with Some v => v | None => false end.

(** Modelled from the spec: the constructors of [data_classes/flag.py] are
    not among the sources.  Constructing the text flags with both
    [apply_stemming] and [apply_lemmatization] requested suppresses
    lemmatization, stemming wins; every other keyword is stored as given.
    The walk leaves the key set as it was, so every keyword is present. *)
Definition TextFlags_kwargs (d : dict) : TextFlags :=
  {| remove_stop_words := kwarg d "remove_stop_words";
     apply_lemmatization :=
       kwarg d "apply_lemmatization" && negb (kwarg d "apply_stemming");
     apply_stemming := kwarg d "apply_stemming";
     remove_punctuation := kwarg d "remove_punctuation" |}.

(** Modelled from the spec: the paragraph flags have no such rule, each
    keyword is stored as given. *)
Definition ParagraphFlags_kwargs (d : dict) : ParagraphFlags :=
  {| remove_title_page := kwarg d "remove_title_page";
     remove_bibliography := kwarg d "remove_bibliography";
     remove_headings := kwarg d "remove_headings";
     remove_tables_and_figures := kwarg d "remove_tables_and_figures" |}.

Definition configure_dynamic_etl (flags : FlagContainer) : M FlagContainer :=
  print (repeat 10%N 100) ;;
  print (py "--- Define the parameters ---") ;;
  text_flags_json_object <- configure_from_flags (text_flags_dict (text_flags flags)) ;;
  para_flags_json_object <- configure_from_flags (paragraph_flags_dict (paragraph_flags flags)) ;;
  let updated_text_flags := TextFlags_kwargs text_flags_json_object in
  let updated_para_flags := ParagraphFlags_kwargs para_flags_json_object in
  ret {| paragraph_flags := updated_para_flags; text_flags := updated_text_flags |}.

(** ** [configure_pipeline_and_flags] *)
Definition configure_pipeline_and_flags (default_flags : FlagContainer) (use_system : bool)
  : M (PipelineType * FlagContainer) :=
  if negb use_system then ret (DEFAULT_DYNAMIC, default_flags)
  else
    chosen_pipeline <- ask_for_pipeline ;;
    match chosen_pipeline with
    | DEFAULT_DYNAMIC | DEMO => ret (chosen_pipeline, default_flags)
    | CUSTOM_DYNAMIC =>
        custom_flags <- configure_dynamic_etl default_flags ;;
        ret (chosen_pipeline, custom_flags)
    end.

End PipelineConfigSystem.

(* ================================================================== *)
(** * The stages as the specification describes them *)
(* ================================================================== *)

Section StageSpec.

Context {PM : ParagraphModifier.t} {TM : TextModifier.t}.

Variable read_json : pystr -> option (list pystr).

(** A paragraph with at least three whitespace-separated tokens. *)
Definition nondegenerate (p : Paragraph) : bool :=
  Nat.leb 3 (List.length (split (text p))).

(** One optional transform of the fixed sequence: its effect on the text,
    and what it does to the outside. *)
Definition step_text (enabled : bool) (transform : text_transform)
  (stopwords : list pystr) (t : pystr) : pystr :=
  if enabled then text_modifier transform stopwords t else t.

Definition step_events (enabled : bool) (notice : string)
  (transform : text_transform) (t : pystr) : list event :=
  if enabled then [EvPrint (py notice); EvTextCall transform t] else [].

Definition text1 (tf : TextFlags) (sw : list pystr) (t : pystr) : pystr :=
  step_text (remove_stop_words tf) RemoveStopWords sw t.
Definition text2 (tf : TextFlags) (sw : list pystr) (t : pystr) : pystr :=
  step_text (apply_lemmatization tf) ApplyLemmatization sw (text1 tf sw t).
Definition text3 (tf : TextFlags) (sw : list pystr) (t : pystr) : pystr :=
  step_text (apply_stemming tf) ApplyStemming sw (text2 tf sw t).
Definition text4 (tf : TextFlags) (sw : list pystr) (t : pystr) : pystr :=
  step_text (remove_punctuation tf) RemovePunctuation sw (text3 tf sw t).

(** The record a retained paragraph becomes, and the events of its
    processing. *)
Definition paragraph_obj (tf : TextFlags) (sw : list pystr) (p : Paragraph)
  : ParagraphObj :=
  {| obj_text := text4 tf sw (strip (text p)); obj_style := name (style p) |}.

Definition paragraph_events (tf : TextFlags) (sw : list pystr) (p : Paragraph)
  : list event :=
  let t := strip (text p) in
  step_events (remove_stop_words tf) "removing stop words" RemoveStopWords t
  ++ step_events (apply_lemmatization tf) "applying lemmatization"
       ApplyLemmatization (text1 tf sw t)
  ++ step_events (apply_stemming tf) "applying stemming"
       ApplyStemming (text2 tf sw t)
  ++ step_events (remove_punctuation tf) "removing punctuation"
       RemovePunctuation (text3 tf sw t).

Definition stage_output (tf : TextFlags) (sw : list pystr) (ps : list Paragraph)
  : list ParagraphObj :=
  map (paragraph_obj tf sw) (filter nondegenerate ps).

Definition stage_events (tf : TextFlags) (sw : list pystr) (ps : list Paragraph)
  : list event :=
  flat_map (paragraph_events tf sw) (filter nondegenerate ps).

(** The stop-word pre-step: the list the paragraphs are processed with and
    the events of loading it, or [None] when loading fails. *)
Definition stopwords_json : pystr := py "stopwords.json".

Definition prestep (tf : TextFlags) : option (list pystr) * list event :=
  if remove_stop_words tf
  then (read_json stopwords_json, [EvOpenRead stopwords_json])
  else (Some [], []).

(** The filter stage: four rules in sequence, each on the output of the
    previous one. *)
Definition rule_kept (enabled : bool) (rule : paragraph_rule) (ps : list Paragraph)
  : list Paragraph :=
  if enabled then fst (paragraph_modifier rule ps) else ps.

Definition rule_removed (enabled : bool) (rule : paragraph_rule) (ps : list Paragraph)
  : list Paragraph :=
  if enabled then snd (paragraph_modifier rule ps) else [].

Definition rule_events (enabled : bool) (notice : list event) (rule : paragraph_rule)
  (ps : list Paragraph) : list event :=
  if enabled then notice ++ [EvParagraphCall rule ps] else [].

Definition kept1 (pf : ParagraphFlags) (ps : list Paragraph) : list Paragraph :=
  rule_kept (remove_title_page pf) RemoveTitle ps.
Definition kept2 (pf : ParagraphFlags) (ps : list Paragraph) : list Paragraph :=
  rule_kept (remove_bibliography pf) RemoveBibliography (kept1 pf ps).
Definition kept3 (pf : ParagraphFlags) (ps : list Paragraph) : list Paragraph :=
  rule_kept (remove_headings pf) RemoveHeadings (kept2 pf ps).
Definition kept4 (pf : ParagraphFlags) (ps : list Paragraph) : list Paragraph :=
  rule_kept (remove_tables_and_figures pf) RemoveTablesFigures (kept3 pf ps).

Definition filter_removed (pf : ParagraphFlags) (ps : list Paragraph) : list Paragraph :=
  rule_removed (remove_title_page pf) RemoveTitle ps
  ++ rule_removed (remove_bibliography pf) RemoveBibliography (kept1 pf ps)
  ++ rule_removed (remove_headings pf) RemoveHeadings (kept2 pf ps)
  ++ rule_removed (remove_tables_and_figures pf) RemoveTablesFigures (kept3 pf ps).

Definition filter_events (pf : ParagraphFlags) (ps : list Paragraph) : list event :=
  rule_events (remove_title_page pf) [EvPrint (py "removing titlepage")] RemoveTitle ps
  ++ rule_events (remove_bibliography pf) [EvPrint (py "removing bib")]
       RemoveBibliography (kept1 pf ps)
  ++ rule_events (remove_headings pf) [] RemoveHeadings (kept2 pf ps)
  ++ rule_events (remove_tables_and_figures pf) [] RemoveTablesFigures (kept3 pf ps).

(** One document of the batch, once the stop-word list [sw] has been
    loaded with events [es]. *)
Definition document_obj (flags : FlagContainer) (sw : list pystr)
  (d : Document * pystr) : DocumentObj :=
  {| filename := snd d;
     corpora := stage_output (text_flags flags) sw
                  (kept4 (paragraph_flags flags) (paragraphs (fst d))) |}.

Definition document_events (flags : FlagContainer) (sw : list pystr)
  (es : list event) (d : Document * pystr) : list event :=
  filter_events (paragraph_flags flags) (paragraphs (fst d))
  ++ es
  ++ stage_events (text_flags flags) sw
       (kept4 (paragraph_flags flags) (paragraphs (fst d))).

End StageSpec.

(** Kinds of events. *)
Definition is_text_call (e : event) : bool :=
  match e with EvTextCall _ _ => true | _ => false end.

Definition is_lemma_or_stem (e : event) : bool :=
  match e with
  | EvTextCall ApplyLemmatization _ | EvTextCall ApplyStemming _ => true
  | _ => false
  end.

Definition is_open_read (e : event) : bool :=
  match e with EvOpenRead _ => true | _ => false end.

Definition is_open_write (e : event) : bool :=
  match e with EvOpenWrite _ _ => true | _ => false end.

Definition is_open_truncate (e : event) : bool :=
  match e with EvOpenTruncate _ => true | _ => false end.

(** An event that touches the artifact. *)
Definition touches_artifact (e : event) : bool :=
  is_open_write e || is_open_truncate e.

Definition is_paragraph_call (e : event) : bool :=
  match e with EvParagraphCall _ _ => true | _ => false end.

Definition count (f : event -> bool) (es : list event) : nat :=
  List.length (filter f es).

Definition is_read_document (e : event) : bool :=
  match e with EvReadDocument _ => true | _ => false end.

(** An event in which a document is worked on: it is read, or a rule or a
    transform is applied to its paragraphs. *)
Definition processes_document (e : event) : bool :=
  is_read_document e || is_paragraph_call e || is_text_call e.

(** The events between two worlds of one run. *)
Definition new_events (w w' : World) : list event :=
  skipn (List.length (trace w)) (trace w').

Definition world0 : World := {| stdin := []; trace := [] |}.

(** ** Concrete collaborators, to run the pipeline on examples *)
Module Sample.

(** The title rule drops the first paragraph, the other rules drop
    nothing. *)
Definition paragraphs_rules : ParagraphModifier.t :=
  {| ParagraphModifier.remove_title := fun ps => (tl ps, firstn 1 ps);
     ParagraphModifier.remove_bibliography := fun ps => (ps, []);
     ParagraphModifier.remove_headings := fun ps => (ps, []);
     ParagraphModifier.remove_tables_figures := fun ps => (ps, []) |}.

(** Each transform marks the text it was given. *)
Definition text_rules : TextModifier.t :=
  {| TextModifier.remove_stop_words := fun t _ => t ++ py "/w";
     TextModifier.apply_lemmatization := fun t => t ++ py "/l";
     TextModifier.apply_stemming := fun t => t ++ py "/s";
     TextModifier.remove_punctuation := fun t => t ++ py "/p" |}.

Definition no_files : pystr -> option (list pystr) := fun _ => None.
Definition stopwords_file : pystr -> option (list pystr) :=
  fun path => if PyStr.eqb path (py "stopwords.json") then Some [py "de"; py "het"] else None.

Definition encode : CorporaTotal -> pystr := fun _ => py "{}".

(** A destination that can be written, one that cannot be opened, one on
    which the write fails. *)
Definition disk_ok : pystr -> pystr -> write_outcome := fun _ _ => Written.
Definition disk_closed : pystr -> pystr -> write_outcome := fun _ _ => OpenRaised.
Definition disk_full : pystr -> pystr -> write_outcome := fun _ _ => WriteRaised.

Definition normal : Style := {| name := py "Normal" |}.
Definition para (s : string) : Paragraph := {| text := py s; style := normal |}.

Definition doc : Document :=
  {| paragraphs := [para "Title"; para "one two three"] |}.

Definition one_source : pystr -> list pystr := fun _ => [py "a.docx"].
Definition two_sources : pystr -> list pystr := fun _ => [py "a.docx"; py "b.docx"].
Definition three_sources : pystr -> list pystr :=
  fun _ => [py "a.docx"; py "b.docx"; py "c.docx"].
Definition parse_all : pystr -> pystr -> option Document := fun _ _ => Some doc.
Definition parse_but_b : pystr -> pystr -> option Document :=
  fun _ file => if PyStr.eqb file (py "b.docx") then None else Some doc.

Definition no_paragraph_flags : ParagraphFlags :=
  {| remove_title_page := false; remove_bibliography := false;
     remove_headings := false; remove_tables_and_figures := false |}.

Definition no_text_flags : TextFlags :=
  {| remove_stop_words := false; apply_lemmatization := false;
     apply_stemming := false; remove_punctuation := false |}.

Definition lemma_and_stem : TextFlags :=
  {| remove_stop_words := false; apply_lemmatization := true;
     apply_stemming := true; remove_punctuation := false |}.

Definition stem_only : TextFlags :=
  {| remove_stop_words := false; apply_lemmatization := false;
     apply_stemming := true; remove_punctuation := false |}.

Definition title_and_stopwords : FlagContainer :=
  {| paragraph_flags :=
       {| remove_title_page := true; remove_bibliography := false;
          remove_headings := false; remove_tables_and_figures := false |};
     text_flags :=
       {| remove_stop_words := true; apply_lemmatization := false;
          apply_stemming := false; remove_punctuation := false |} |}.

Definition no_flags : FlagContainer :=
  {| paragraph_flags := no_paragraph_flags; text_flags := no_text_flags |}.

(** Rules that keep what [paragraphs_rules] keeps and report nothing as
    removed. *)
Definition paragraphs_rules_silent : ParagraphModifier.t :=
  {| ParagraphModifier.remove_title := fun ps => (tl ps, []);
     ParagraphModifier.remove_bibliography := fun ps => (ps, []);
     ParagraphModifier.remove_headings := fun ps => (ps, []);
     ParagraphModifier.remove_tables_figures := fun ps => (ps, []) |}.

(** An order of the text flags with stemming before lemmatization, and one
    with lemmatization before stemming. *)
Definition stemming_first : list pystr :=
  [ py "remove_stop_words"; py "apply_stemming"; py "apply_lemmatization";
    py "remove_punctuation" ].

Definition lemmatization_first : list pystr :=
  [ py "remove_stop_words"; py "apply_lemmatization"; py "apply_stemming";
    py "remove_punctuation" ].

Definition all_text_flags : TextFlags :=
  {| remove_stop_words := true; apply_lemmatization := true;
     apply_stemming := true; remove_punctuation := true |}.

End Sample.

(** Whether every source of a list can be parsed. *)
Definition all_parse (parse_docx : pystr -> pystr -> option Document)
  (data_dir : pystr) (files : list pystr) : bool :=
  forallb (fun file => match parse_docx data_dir file with
                       | Some _ => true
                       | None => false
                       end) files.

(** ** The configurator as the specification describes it *)

(** The identifiers of the eight flags. *)
Definition flag_identifiers : list pystr :=
  [ py "remove_stop_words"; py "apply_lemmatization"; py "apply_stemming";
    py "remove_punctuation"; py "remove_title_page"; py "remove_bibliography";
    py "remove_headings"; py "remove_tables_and_figures" ].

(** An identifier with every underscore replaced by a space. *)
Definition underscores_to_spaces (key : pystr) : pystr :=
  map (fun c => if char_eqb c 95%N then 32%N else c) key.

(** The question for a flag, in the words of the specification. *)
Definition question_text (key : pystr) : pystr :=
  py "Do you want to " ++ underscores_to_spaces key ++ py "?".

(** The events of asking one question: the prompt, or the complaint about
    an answer that is neither yes nor no. *)
Definition question_event (question : pystr) (e : event) : Prop :=
  e = EvInput (question ++ py " (y/n) ") \/ e = EvPrint invalid_yn.

(** A lowercase table to run examples with: code points outside ASCII are
    left as they are. *)
Definition identity_lower : pystr -> nat -> pystr :=
  fun s i => [nth i s 128%N].

(** ** Lines of input and the events of a round of a prompt *)

(** The line a user types to answer yes or no. *)
Definition answer_line (b : bool) : pystr := if b then py "y" else py "n".

(** A line the pipeline prompt returns on. *)
Definition valid_choice (answer : pystr) : bool :=
  PyStr.eqb answer (py "1") || PyStr.eqb answer (py "2") || PyStr.eqb answer (py "3").

(** A line a flag question returns on. *)
Definition valid_answer (unicode_lower : pystr -> nat -> pystr) (answer : pystr) : bool :=
  PyStr.eqb (lower unicode_lower answer) (py "y")
  || PyStr.eqb (lower unicode_lower answer) (py "n").

(** The events of one round that ends in a complaint. *)
Definition retry_pipeline : list event :=
  pipeline_menu ++ [EvPrint (py "Invalid answer.")].

Definition retry_flag (question : pystr) : list event :=
  [EvInput (question ++ py " (y/n) "); EvPrint invalid_yn].

Definition is_input_event (e : event) : bool :=
  match e with EvInput _ => true | _ => false end.

(** The prompt of the question about a key. *)
Definition prompt_of (key : pystr) : event :=
  EvInput (specific_question key ++ py " (y/n) ").

(** The names of the four text flags. *)
Definition text_flag_names : list pystr :=
  [ py "remove_stop_words"; py "apply_lemmatization"; py "apply_stemming";
    py "remove_punctuation" ].

(** The events of the walk that belong to one flag: none, which only
    happens to [apply_lemmatization], or the prompt with the question of
    that very flag, in the words of the specification, followed by nothing
    but complaints and repetitions of the same prompt. *)
Definition flag_segment (key : pystr) (seg : list event) : Prop :=
  (seg = [] /\ key = py "apply_lemmatization")
  \/ exists es,
       seg = EvInput (question_text key ++ py " (y/n) ") :: es
       /\ Forall (question_event (question_text key)) es.

(** The answers of a user who would say [ans key] to the question about
    [key]: the keys that are asked about when [apply_stemming] comes before
    [apply_lemmatization], and the value each key ends with. *)
Definition asked_keys (ans : pystr -> bool) (ks : list pystr) : list pystr :=
  if ans (py "apply_stemming")
  then filter (fun key => negb (PyStr.eqb key (py "apply_lemmatization"))) ks
  else ks.

Definition answered (ans : pystr -> bool) (key : pystr) : bool :=
  if PyStr.eqb key (py "apply_lemmatization") && ans (py "apply_stemming")
  then false
  else ans key.

(* ================================================================== *)
(** * Proofs *)
(* ================================================================== *)

(* ================================================================== *)
(** * Strings: basic facts *)
(* ================================================================== *)

Lemma pystr_eqb_eq (s t : pystr) : PyStr.eqb s t = true <-> s = t.
Proof.
  revert t; induction s as [|a s IH]; intros [|b t]; simpl; split;
    try congruence; try reflexivity.
  - intros H. apply andb_true_iff in H as [Hab Hst].
    apply N.eqb_eq in Hab. apply IH in Hst. congruence.
  - intros H. injection H as -> ->. apply andb_true_iff. split.
    + apply N.eqb_refl.
    + apply IH. reflexivity.
Qed.

Lemma pystr_eqb_refl (s : pystr) : PyStr.eqb s s = true.
Proof. apply pystr_eqb_eq. reflexivity. Qed.

Lemma pystr_eqb_neq (s t : pystr) : PyStr.eqb s t = false <-> s <> t.
Proof.
  split.
  - intros H E. apply pystr_eqb_eq in E. congruence.
  - intros H. destruct (PyStr.eqb s t) eqn:E; [|reflexivity].
    apply pystr_eqb_eq in E. contradiction.
Qed.

(* ================================================================== *)
(** * The world and the monad *)
(* ================================================================== *)

Lemma log_nil (w : World) : log w [] = w.
Proof. destruct w; unfold log; simpl. now rewrite app_nil_r. Qed.

Lemma log_log (w : World) (a b : list event) : log (log w a) b = log w (a ++ b).
Proof. unfold log; simpl. now rewrite app_assoc. Qed.

Lemma trace_log (w : World) (es : list event) : trace (log w es) = trace w ++ es.
Proof. reflexivity. Qed.

Lemma stdin_log (w : World) (es : list event) : stdin (log w es) = stdin w.
Proof. reflexivity. Qed.

Lemma count_app (f : event -> bool) (a b : list event) :
  count f (a ++ b) = count f a + count f b.
Proof. unfold count. now rewrite filter_app, length_app. Qed.

(* ================================================================== *)
(** * The text transform stage *)
(* ================================================================== *)

Section TransformStage.

Context {PM : ParagraphModifier.t} {TM : TextModifier.t}.
Variable read_json : pystr -> option (list pystr).

(** The three literal texts of the first test have no token at all, so
    the token count alone decides whether a paragraph is skipped. *)
Lemma skip_test (p : Paragraph) :
  (PyStr.eqb (text p) [] || PyStr.eqb (text p) (py " ") || PyStr.eqb (text p) nl)
  || Nat.ltb (List.length (split (text p))) 3
  = negb (nondegenerate p).
Proof.
  unfold nondegenerate.
  assert (Hlt : Nat.ltb (List.length (split (text p))) 3
                = negb (Nat.leb 3 (List.length (split (text p))))).
  { destruct (Nat.leb_spec 3 (List.length (split (text p))));
    destruct (Nat.ltb_spec (List.length (split (text p))) 3); simpl; try reflexivity; lia. }
  rewrite Hlt.
  destruct (PyStr.eqb (text p) []) eqn:E1.
  { apply pystr_eqb_eq in E1. rewrite E1. reflexivity. }
  destruct (PyStr.eqb (text p) (py " ")) eqn:E2.
  { apply pystr_eqb_eq in E2. rewrite E2. reflexivity. }
  destruct (PyStr.eqb (text p) nl) eqn:E3.
  { apply pystr_eqb_eq in E3. rewrite E3. reflexivity. }
  reflexivity.
Qed.

Lemma text_step_run (enabled : bool) (notice : string) (transform : text_transform)
  (sw : list pystr) (o : ParagraphObj) (w : World) :
  text_step enabled notice transform sw o w
  = (Ok {| obj_text := step_text enabled transform sw (obj_text o);
           obj_style := obj_style o |},
     log w (step_events enabled notice transform (obj_text o))).
Proof.
  unfold text_step, step_text, step_events.
  destruct enabled.
  - unfold bind, print, call_text, emit, ret, bind. simpl.
    rewrite log_log. reflexivity.
  - unfold ret. rewrite log_nil. destruct o; reflexivity.
Qed.

Lemma transform_loop_run (tf : TextFlags) (sw : list pystr) (ps : list Paragraph) :
  forall (total : list ParagraphObj) (w : World),
    transform_loop tf sw ps total w
    = (Ok (total ++ stage_output tf sw ps), log w (stage_events tf sw ps)).
Proof.
  induction ps as [|p ps IH]; intros total w.
  - simpl. unfold ret, stage_output, stage_events. simpl.
    now rewrite app_nil_r, log_nil.
  - cbn [transform_loop].
    pose proof (skip_test p) as Hskip.
    unfold stage_output, stage_events. cbn [filter].
    destruct (PyStr.eqb (text p) [] || PyStr.eqb (text p) (py " ")
              || PyStr.eqb (text p) nl);
      destruct (Nat.ltb (List.length (split (text p))) 3);
      destruct (nondegenerate p); cbn in Hskip; try discriminate Hskip;
      try apply IH.
    unfold bind at 1. rewrite text_step_run.
    unfold bind at 1. rewrite text_step_run.
    unfold bind at 1. rewrite text_step_run.
    unfold bind at 1. rewrite text_step_run.
    rewrite IH. cbn [map flat_map obj_text obj_style].
    rewrite !log_log, <- !app_assoc.
    unfold paragraph_obj, paragraph_events, text4, text3, text2, text1,
      stage_output, stage_events.
    rewrite <- !app_assoc. reflexivity.
Qed.

(** The whole stage, for every flag value, paragraph sequence and world. *)
Lemma transform_stage_run (ps : list Paragraph) (tf : TextFlags) (w : World) :
  __transform_paragraphs_from_doc read_json ps tf w
  = match prestep read_json tf with
    | (Some sw, es) =>
        (Ok (stage_output tf sw ps), log w (es ++ stage_events tf sw ps))
    | (None, es) => (Raise (ResourceError stopwords_json), log w es)
    end.
Proof.
  unfold __transform_paragraphs_from_doc, prestep.
  destruct (remove_stop_words tf) eqn:Hsw.
  - unfold bind at 1, open_loads, bind at 1, emit.
    fold stopwords_json.
    destruct (read_json stopwords_json) as [sw|].
    + unfold ret. rewrite transform_loop_run, log_log. reflexivity.
    + reflexivity.
  - unfold bind at 1, ret. rewrite transform_loop_run. reflexivity.
Qed.

End TransformStage.

Lemma new_events_log (w : World) (es : list event) : new_events w (log w es) = es.
Proof.
  unfold new_events, log; simpl.
  induction (trace w) as [|e t IH]; simpl; auto.
Qed.

Section TransformClaims.

Context {PM : ParagraphModifier.t} {TM : TextModifier.t}.
Variable read_json : pystr -> option (list pystr).

Lemma filter_nondegenerate_idem (ps : list Paragraph) :
  filter nondegenerate (filter nondegenerate ps) = filter nondegenerate ps.
Proof.
  induction ps as [|p ps IH]; simpl; auto.
  destruct (nondegenerate p) eqn:E; simpl; rewrite ?E, IH; reflexivity.
Qed.

Lemma filter_nondegenerate_all (ps : list Paragraph) :
  Forall (fun p => nondegenerate p = true) ps -> filter nondegenerate ps = ps.
Proof.
  induction 1 as [|p ps Hp _ IH]; simpl; auto. now rewrite Hp, IH.
Qed.






Local Notation "'stage'" := (__transform_paragraphs_from_doc read_json).


(** C3.  For every flag value the stage drops exactly the paragraphs with
    fewer than three whitespace-separated tokens, and it does so before any
    transform: the dropped paragraphs change neither the result nor the
    events of the call (first part), and the result has one record per
    paragraph of three tokens or more, in order, the transforms being
    called on those paragraphs only (second part). *)
Theorem degeneracy_filter (tf : TextFlags) (ps : list Paragraph) (w : World) :
  stage ps tf w = stage (filter nondegenerate ps) tf w
  /\ match prestep read_json tf with
     | (Some sw, es) =>
         stage ps tf w
         = (Ok (map (paragraph_obj tf sw) (filter nondegenerate ps)),
            log w (es ++ flat_map (paragraph_events tf sw) (filter nondegenerate ps)))
     | (None, es) =>
         stage ps tf w = (Raise (ResourceError stopwords_json), log w es)
     end
  /\ forall p : Paragraph,
       (nondegenerate p = false <-> List.length (split (text p)) <= 2)
       /\ (nondegenerate p = true <-> 3 <= List.length (split (text p))).
Proof.
  split; [|split].
  - rewrite !transform_stage_run.
    unfold stage_output, stage_events.
    now rewrite filter_nondegenerate_idem.
  - rewrite transform_stage_run.
    destruct (prestep read_json tf) as [[sw|] es]; reflexivity.
  - intros p. unfold nondegenerate.
    destruct (Nat.leb_spec 3 (List.length (split (text p)))); split; split;
      intros; try reflexivity; try discriminate; lia.
Qed.

(** C6.  With all four text switches off, the stage returns, for every
    paragraph sequence, the paragraphs of three tokens or more, in input
    order, each with its trimmed text and its style name; nothing is read,
    printed or called. *)
Theorem transform_all_off (ps : list Paragraph) (w : World) :
  stage ps
    {| remove_stop_words := false; apply_lemmatization := false;
       apply_stemming := false; remove_punctuation := false |} w
  = (Ok (map (fun p => {| obj_text := strip (text p); obj_style := name (style p) |})
           (filter nondegenerate ps)),
     w).
Proof.
  rewrite transform_stage_run. unfold prestep; simpl.
  unfold stage_output, stage_events.
  f_equal.
  induction (filter nondegenerate ps) as [|p l IH]; simpl.
  - apply log_nil.
  - exact IH.
Qed.

(** C10.  For every flag value, the records returned by the stage carry, in
    order, the style names of the retained paragraphs; the stage fails only
    when the stop-word list is requested and cannot be loaded; and each
    transform step rewrites the text of the record and keeps its style. *)
Theorem transform_keeps_style (tf : TextFlags) (ps : list Paragraph) (w : World) :
  match fst (stage ps tf w) with
  | Ok out =>
      map obj_style out = map (fun p => name (style p)) (filter nondegenerate ps)
  | Raise _ => remove_stop_words tf = true /\ read_json stopwords_json = None
  end
  /\ forall (enabled : bool) (notice : string) (transform : text_transform)
       (sw : list pystr) (o : ParagraphObj) (w0 : World),
      exists t : pystr,
        fst (text_step enabled notice transform sw o w0)
        = Ok {| obj_text := t; obj_style := obj_style o |}.
Proof.
  split.
  - rewrite transform_stage_run. unfold prestep.
    destruct (remove_stop_words tf) eqn:Hsw.
    + destruct (read_json stopwords_json) as [sw|] eqn:Hr; simpl.
      * unfold stage_output. rewrite map_map. reflexivity.
      * split; reflexivity.
    + simpl. unfold stage_output. rewrite map_map. reflexivity.
  - intros. rewrite text_step_run. eexists. reflexivity.
Qed.

End TransformClaims.

(* ================================================================== *)
(** * The paragraph filter stage *)
(* ================================================================== *)

Section FilterStage.

Context {PM : ParagraphModifier.t}.

Lemma remove_paragraphs_run (ps : list Paragraph) (pf : ParagraphFlags) (w : World) :
  __remove_paragraphs_from_doc ps pf w
  = (Ok (kept4 pf ps, filter_removed pf ps), log w (filter_events pf ps)).
Proof.
  unfold __remove_paragraphs_from_doc, filter_removed, filter_events,
    kept4, kept3, kept2, kept1, rule_kept, rule_removed, rule_events.
  unfold bind, print, call_paragraph, emit, ret, bind.
  destruct (remove_title_page pf), (remove_bibliography pf), (remove_headings pf),
    (remove_tables_and_figures pf); cbn [fst snd app];
    rewrite ?log_log, ?log_nil, ?app_nil_r, <- ?app_assoc; cbn [app]; reflexivity.
Qed.

(** C7.  The filter stage applies the enabled rules in the order title
    page, bibliography, headings, tables and figures, each rule being
    called on the paragraphs kept by the rules before it; a rule that is
    switched off is not called and passes its input on; with all four
    switches off the stage returns its input and does nothing else. *)
Theorem filter_stage_composes (ps : list Paragraph) (pf : ParagraphFlags) (w : World) :
  let k1 := rule_kept (remove_title_page pf) RemoveTitle ps in
  let k2 := rule_kept (remove_bibliography pf) RemoveBibliography k1 in
  let k3 := rule_kept (remove_headings pf) RemoveHeadings k2 in
  let k4 := rule_kept (remove_tables_and_figures pf) RemoveTablesFigures k3 in
  (exists removed : list Paragraph,
      __remove_paragraphs_from_doc ps pf w = (Ok (k4, removed), log w (filter_events pf ps)))
  /\ filter is_paragraph_call (filter_events pf ps)
     = (if remove_title_page pf then [EvParagraphCall RemoveTitle ps] else [])
       ++ (if remove_bibliography pf then [EvParagraphCall RemoveBibliography k1] else [])
       ++ (if remove_headings pf then [EvParagraphCall RemoveHeadings k2] else [])
       ++ (if remove_tables_and_figures pf
           then [EvParagraphCall RemoveTablesFigures k3] else [])
  /\ (forall (rule : paragraph_rule) (l : list Paragraph), rule_kept false rule l = l)
  /\ __remove_paragraphs_from_doc ps
       {| remove_title_page := false; remove_bibliography := false;
          remove_headings := false; remove_tables_and_figures := false |} w
     = (Ok (ps, []), w).
Proof.
  cbv zeta. split; [|split; [|split]].
  - exists (filter_removed pf ps). apply remove_paragraphs_run.
  - unfold filter_events, rule_events, kept3, kept2, kept1.
    destruct (remove_title_page pf), (remove_bibliography pf), (remove_headings pf),
      (remove_tables_and_figures pf); reflexivity.
  - reflexivity.
  - rewrite remove_paragraphs_run. cbn. now rewrite log_nil.
Qed.

End FilterStage.

(* ================================================================== *)
(** * The orchestrator *)
(* ================================================================== *)

Lemma count_flat_map_zero {A} (f : event -> bool) (g : A -> list event) (l : list A) :
  (forall x, count f (g x) = 0) -> count f (flat_map g l) = 0.
Proof.
  intros H. induction l as [|x l IH]; simpl; auto.
  now rewrite count_app, H, IH.
Qed.

Lemma count_reads (f : event -> bool) (files : list pystr) :
  (forall file, f (EvReadDocument file) = false) ->
  count f (map EvReadDocument files) = 0.
Proof.
  intros H. induction files as [|x l IH]; simpl; auto.
  unfold count in *. simpl. now rewrite H.
Qed.

Lemma untouched_not_written (es : list event) :
  count touches_artifact es = 0 -> count is_open_write es = 0.
Proof.
  unfold count. induction es as [|e es IH]; [reflexivity|].
  simpl. unfold touches_artifact at 1.
  destruct (is_open_write e); [discriminate|].
  destruct (is_open_truncate e); [discriminate|]. exact IH.
Qed.

Section Orchestrator.

Context {PM : ParagraphModifier.t} {TM : TextModifier.t} {Base : BaseETL.t}.
Variable read_json : pystr -> option (list pystr).
Variable jsonpickle_encode : CorporaTotal -> pystr.
Variable file_write : pystr -> pystr -> write_outcome.
Variable list_sources : pystr -> list pystr.
Variable parse_docx : pystr -> pystr -> option Document.

Lemma filter_events_count (f : event -> bool) (pf : ParagraphFlags) (ps : list Paragraph) :
  (forall line, f (EvPrint line) = false) ->
  (forall rule arg, f (EvParagraphCall rule arg) = false) ->
  count f (filter_events pf ps) = 0.
Proof.
  intros H1 H2. unfold filter_events, rule_events, count.
  destruct (remove_title_page pf), (remove_bibliography pf), (remove_headings pf),
    (remove_tables_and_figures pf); simpl; rewrite ?H1, ?H2; reflexivity.
Qed.

Lemma stage_events_count (f : event -> bool) (tf : TextFlags) (sw : list pystr)
  (ps : list Paragraph) :
  (forall line, f (EvPrint line) = false) ->
  (forall transform arg, f (EvTextCall transform arg) = false) ->
  count f (stage_events tf sw ps) = 0.
Proof.
  intros H1 H2. unfold stage_events. apply count_flat_map_zero. intros p.
  unfold paragraph_events, step_events, count.
  destruct (remove_stop_words tf), (apply_lemmatization tf), (apply_stemming tf),
    (remove_punctuation tf); simpl; rewrite ?H1, ?H2; reflexivity.
Qed.

Lemma prestep_events_count (f : event -> bool) (tf : TextFlags) :
  (forall path, f (EvOpenRead path) = false) ->
  count f (snd (prestep read_json tf)) = 0.
Proof.
  intros H. unfold prestep, count.
  destruct (remove_stop_words tf); simpl; rewrite ?H; reflexivity.
Qed.

(** The loop of [_transform] over the documents. *)
Lemma transform_docs_run (flags : FlagContainer) (data : list (Document * pystr)) :
  forall (docs : list DocumentObj) (w : World),
    transform_docs read_json flags data docs w
    = match prestep read_json (text_flags flags) with
      | (Some sw, es) =>
          (Ok (docs ++ map (document_obj flags sw) data),
           log w (flat_map (document_events flags sw es) data))
      | (None, es) =>
          match data with
          | [] => (Ok docs, w)
          | d :: _ =>
              (Raise (ResourceError stopwords_json),
               log w (filter_events (paragraph_flags flags) (paragraphs (fst d)) ++ es))
          end
      end.
Proof.
  induction data as [|[d file] data IH]; intros docs w.
  - simpl. unfold ret.
    destruct (prestep read_json (text_flags flags)) as [[sw|] es];
      now rewrite ?app_nil_r, ?log_nil.
  - cbn [transform_docs].
    unfold bind at 1. rewrite remove_paragraphs_run.
    unfold bind at 1. rewrite transform_stage_run. cbn [fst].
    destruct (prestep read_json (text_flags flags)) as [[sw|] es] eqn:Hpre.
    + rewrite IH. cbn [map flat_map app].
      unfold document_obj, document_events. cbn [fst snd].
      rewrite !log_log, <- !app_assoc. reflexivity.
    + rewrite log_log. reflexivity.
Qed.

Lemma transform_run (flags : FlagContainer) (data : list (Document * pystr)) (w : World) :
  _transform read_json data flags w
  = match prestep read_json (text_flags flags) with
    | (Some sw, es) =>
        (Ok {| config := flags; documents := map (document_obj flags sw) data |},
         log w (flat_map (document_events flags sw es) data))
    | (None, es) =>
        match data with
        | [] => (Ok {| config := flags; documents := [] |}, w)
        | d :: _ =>
            (Raise (ResourceError stopwords_json),
             log w (filter_events (paragraph_flags flags) (paragraphs (fst d)) ++ es))
        end
    end.
Proof.
  unfold _transform, bind. rewrite transform_docs_run.
  destruct (prestep read_json (text_flags flags)) as [[sw|] es].
  - reflexivity.
  - destruct data; reflexivity.
Qed.

(** Extraction: either every source parses and the pairs come back in
    order, or the first source that does not parse is fatal. *)
Lemma extract_files_run (data_dir : pystr) (files : list pystr) :
  forall w : World,
    if all_parse parse_docx data_dir files
    then exists data,
        extract_files parse_docx data_dir files w
        = (Ok data, log w (map EvReadDocument files))
        /\ map snd data = files
        /\ Forall (fun d => parse_docx data_dir (snd d) = Some (fst d)) data
    else exists file read,
        extract_files parse_docx data_dir files w
        = (Raise (ExtractionError file), log w (map EvReadDocument read))
        /\ In file files /\ parse_docx data_dir file = None.
Proof.
  induction files as [|file files IH]; intros w.
  - simpl. exists []. unfold ret. rewrite log_nil. auto.
  - cbn [all_parse forallb extract_files]. unfold bind at 1, emit.
    destruct (parse_docx data_dir file) as [doc|] eqn:Hp.
    + cbn [andb]. fold (all_parse parse_docx data_dir files).
      specialize (IH (log w [EvReadDocument file])).
      destruct (all_parse parse_docx data_dir files).
      * destruct IH as (data & Hrun & Hnames & Hparsed).
        exists ((doc, file) :: data). unfold bind. rewrite Hrun, log_log.
        unfold ret. simpl. repeat split; auto. now f_equal.
      * destruct IH as (bad & read & Hrun & Hin & Hbad).
        exists bad, (file :: read). unfold bind. rewrite Hrun, log_log.
        simpl. auto.
    + cbn [andb]. exists file, [file]. unfold raise. simpl. auto.
Qed.

Local Notation "'stage'" := (__transform_paragraphs_from_doc read_json).
Local Notation "'run'" := (_execute_etl read_json jsonpickle_encode file_write).

Lemma all_parse_false (data_dir : pystr) (files : list pystr) :
  all_parse parse_docx data_dir files = false
  <-> exists file, In file files /\ parse_docx data_dir file = None.
Proof.
  unfold all_parse. induction files as [|x l IH]; simpl.
  - split; [discriminate | intros (f & [] & _)].
  - destruct (parse_docx data_dir x) eqn:Hx; simpl.
    + rewrite IH. split.
      * intros (f & Hin & Hf). eauto.
      * intros (f & [-> | Hin] & Hf); [congruence | eauto].
    + split; eauto.
Qed.

Lemma document_events_count (f : event -> bool) (flags : FlagContainer)
  (sw : list pystr) (d : Document * pystr) :
  (forall line, f (EvPrint line) = false) ->
  (forall rule arg, f (EvParagraphCall rule arg) = false) ->
  (forall transform arg, f (EvTextCall transform arg) = false) ->
  (forall path, f (EvOpenRead path) = false) ->
  count f (document_events flags sw (snd (prestep read_json (text_flags flags))) d) = 0.
Proof.
  intros H1 H2 H3 H4. unfold document_events.
  rewrite !count_app, filter_events_count, prestep_events_count, stage_events_count;
    auto.
Qed.

(** The three outcomes of [_load]. *)
Lemma load_run (dest_str : pystr) (data : CorporaTotal) (w : World) :
  _load jsonpickle_encode file_write dest_str data w
  = match file_write dest_str (jsonpickle_encode data) with
    | Written => (Ok tt, log w [EvOpenWrite dest_str (jsonpickle_encode data)])
    | OpenRaised => (Raise (OSError dest_str), w)
    | WriteRaised => (Raise (OSError dest_str), log w [EvOpenTruncate dest_str])
    end.
Proof.
  unfold _load. destruct (file_write dest_str (jsonpickle_encode data)); reflexivity.
Qed.

(** The transformation reads no source and does not touch the artifact. *)
Lemma transform_events (data : list (Document * pystr)) (flags : FlagContainer)
  (w : World) :
  exists es,
    snd (_transform read_json data flags w) = log w es
    /\ count touches_artifact es = 0
    /\ count is_read_document es = 0.
Proof.
  rewrite transform_run.
  pose proof (fun f H => prestep_events_count f (text_flags flags) H) as Hpre.
  pose proof (fun f sw d H1 H2 H3 H4 =>
                document_events_count f flags sw d H1 H2 H3 H4) as Hdoc.
  destruct (prestep read_json (text_flags flags)) as [[sw|] es]; cbn [fst snd] in *.
  - eexists. split; [reflexivity|].
    split; apply count_flat_map_zero; intros d; apply Hdoc; reflexivity.
  - destruct data as [|d data]; cbn [snd].
    + exists []. now rewrite log_nil.
    + eexists. split; [reflexivity|].
      split; rewrite count_app, filter_events_count, Hpre by reflexivity; reflexivity.
Qed.

(** The run, phase by phase, whatever the extraction is. *)
Lemma execute_etl_phases (data_dir dest_dir : pystr) (flags : FlagContainer) (w : World) :
  match BaseETL._extract data_dir w with
  | (Raise e, w1) => run data_dir dest_dir flags w = (Raise e, w1)
  | (Ok data, w1) =>
      match _transform read_json data flags w1 with
      | (Raise e, w2) => run data_dir dest_dir flags w = (Raise e, w2)
      | (Ok total, w2) =>
          run data_dir dest_dir flags w
          = match file_write dest_dir (jsonpickle_encode total) with
            | Written =>
                (Ok tt, log w2 [EvOpenWrite dest_dir (jsonpickle_encode total)])
            | OpenRaised => (Raise (OSError dest_dir), w2)
            | WriteRaised => (Raise (OSError dest_dir), log w2 [EvOpenTruncate dest_dir])
            end
      end
  end.
Proof.
  unfold _execute_etl, bind.
  destruct (BaseETL._extract data_dir w) as [[data|e] w1]; [|reflexivity].
  destruct (_transform read_json data flags w1) as [[total|e] w2]; [|reflexivity].
  apply load_run.
Qed.

End Orchestrator.

Section OrchestratorClaims.

Context {PM : ParagraphModifier.t} {TM : TextModifier.t} {Base : BaseETL.t}.
Variable read_json : pystr -> option (list pystr).
Variable jsonpickle_encode : CorporaTotal -> pystr.
Variable file_write : pystr -> pystr -> write_outcome.
Variable list_sources : pystr -> list pystr.
Variable parse_docx : pystr -> pystr -> option Document.

Local Notation "'stage'" := (__transform_paragraphs_from_doc read_json).
Local Notation "'run'" := (_execute_etl read_json jsonpickle_encode file_write).
Local Notation "'spec_run'" :=
  (_execute_etl (Base := BaseETL_spec list_sources parse_docx)
     read_json jsonpickle_encode file_write).

(** The run on the extraction of the specification. *)
Lemma spec_run_extraction (data_dir dest_dir : pystr) (flags : FlagContainer) (w : World) :
  if all_parse parse_docx data_dir (list_sources data_dir)
  then exists data,
      map snd data = list_sources data_dir
      /\ Forall (fun d => parse_docx data_dir (snd d) = Some (fst d)) data
      /\ BaseETL._extract (t := BaseETL_spec list_sources parse_docx) data_dir w
         = (Ok data, log w (map EvReadDocument (list_sources data_dir)))
  else exists file read,
      spec_run data_dir dest_dir flags w
      = (Raise (ExtractionError file), log w (map EvReadDocument read))
      /\ In file (list_sources data_dir) /\ parse_docx data_dir file = None.
Proof.
  pose proof (extract_files_run parse_docx data_dir (list_sources data_dir) w) as Hex.
  destruct (all_parse parse_docx data_dir (list_sources data_dir)).
  - destruct Hex as (data & Hrun & Hnames & Hparsed). exists data. auto.
  - destruct Hex as (file & read & Hrun & Hin & Hbad).
    exists file, read. split; [|auto].
    pose proof (execute_etl_phases (Base := BaseETL_spec list_sources parse_docx)
                  read_json jsonpickle_encode file_write data_dir dest_dir flags w) as Hph.
    cbn [BaseETL._extract BaseETL_spec] in Hph. rewrite Hrun in Hph. exact Hph.
Qed.

(** How often the run on the extraction of the specification writes the
    artifact in full. *)
Lemma spec_run_writes (data_dir dest_dir : pystr) (flags : FlagContainer) (w : World) :
  count is_open_write (new_events w (snd (spec_run data_dir dest_dir flags w)))
  = match fst (spec_run data_dir dest_dir flags w) with Ok _ => 1 | Raise _ => 0 end.
Proof.
  pose proof (spec_run_extraction data_dir dest_dir flags w) as Hex.
  destruct (all_parse parse_docx data_dir (list_sources data_dir)).
  - destruct Hex as (data & _ & _ & Hrun).
    pose proof (execute_etl_phases (Base := BaseETL_spec list_sources parse_docx)
                  read_json jsonpickle_encode file_write data_dir dest_dir flags w) as Hph.
    rewrite Hrun in Hph.
    destruct (transform_events read_json data flags
                (log w (map EvReadDocument (list_sources data_dir))))
      as (es & Hes & Htouch & _).
    pose proof (untouched_not_written es Htouch) as Hw.
    destruct (_transform read_json data flags
                (log w (map EvReadDocument (list_sources data_dir))))
      as [[total|e] w2]; cbn [snd] in Hes; subst w2; rewrite Hph.
    + destruct (file_write dest_dir (jsonpickle_encode total)); cbn [fst snd];
        rewrite ?log_log, new_events_log, !count_app, count_reads, Hw by reflexivity;
        reflexivity.
    + cbn [fst snd]. rewrite log_log, new_events_log, count_app, count_reads, Hw
        by reflexivity. reflexivity.
  - destruct Hex as (file & read & -> & _). cbn [fst snd].
    rewrite new_events_log. apply count_reads. reflexivity.
Qed.

(** C4.  A run has three phases, in this order and without interleaving:
    extraction, transformation, one write.  When extraction raises, the
    run raises the same exception in the world extraction left: nothing is
    transformed and nothing is written.  Otherwise the transformation runs
    on what was extracted and does not touch the artifact, and the write
    comes last: the artifact is written in full when the run succeeds,
    left alone when [open] raises, left empty when the write raises.  With
    the extraction of the specification, a source that cannot be parsed
    makes the run raise with reads of sources as its only events, and the
    artifact is written exactly once by a run that succeeds and never by a
    run that raises. *)
Theorem extraction_failure_aborts (data_dir dest_dir : pystr) (flags : FlagContainer)
  (w : World) :
  match BaseETL._extract data_dir w with
  | (Raise e, w1) => run data_dir dest_dir flags w = (Raise e, w1)
  | (Ok data, w1) =>
      exists es,
        snd (_transform read_json data flags w1) = log w1 es
        /\ count touches_artifact es = 0
        /\ count is_read_document es = 0
        /\ match fst (_transform read_json data flags w1) with
           | Raise e => run data_dir dest_dir flags w = (Raise e, log w1 es)
           | Ok total =>
               run data_dir dest_dir flags w
               = match file_write dest_dir (jsonpickle_encode total) with
                 | Written =>
                     (Ok tt,
                      log w1 (es ++ [EvOpenWrite dest_dir (jsonpickle_encode total)]))
                 | OpenRaised => (Raise (OSError dest_dir), log w1 es)
                 | WriteRaised =>
                     (Raise (OSError dest_dir), log w1 (es ++ [EvOpenTruncate dest_dir]))
                 end
           end
  end
  /\ count is_open_write (new_events w (snd (spec_run data_dir dest_dir flags w)))
     = match fst (spec_run data_dir dest_dir flags w) with Ok _ => 1 | Raise _ => 0 end
  /\ ((exists file, In file (list_sources data_dir) /\ parse_docx data_dir file = None) ->
      exists file read,
        spec_run data_dir dest_dir flags w
        = (Raise (ExtractionError file), log w (map EvReadDocument read))
        /\ In file (list_sources data_dir) /\ parse_docx data_dir file = None
        /\ count touches_artifact (map EvReadDocument read) = 0
        /\ count is_paragraph_call (map EvReadDocument read) = 0
        /\ count is_text_call (map EvReadDocument read) = 0).
Proof.
  split; [|split].
  - pose proof (execute_etl_phases read_json jsonpickle_encode file_write
                  data_dir dest_dir flags w) as Hph.
    destruct (BaseETL._extract data_dir w) as [[data|e] w1]; [|exact Hph].
    destruct (transform_events read_json data flags w1) as (es & Hes & Htouch & Hread).
    exists es. split; [exact Hes|]. split; [exact Htouch|]. split; [exact Hread|].
    destruct (_transform read_json data flags w1) as [[total|e] w2];
      cbn [fst snd] in *; subst w2; rewrite Hph.
    + destruct (file_write dest_dir (jsonpickle_encode total));
        rewrite ?log_log; reflexivity.
    + reflexivity.
  - apply spec_run_writes.
  - intros Hfail.
    pose proof (spec_run_extraction data_dir dest_dir flags w) as Hrun.
    apply (all_parse_false parse_docx) in Hfail. rewrite Hfail in Hrun.
    destruct Hrun as (file & read & Hr & Hin & Hbad).
    exists file, read. repeat split; auto; apply count_reads; reflexivity.
Qed.

Lemma stage_open_reads (tf : TextFlags) (ps : list Paragraph) (w : World) :
  filter is_open_read (new_events w (snd (stage ps tf w)))
  = if remove_stop_words tf then [EvOpenRead stopwords_json] else [].
Proof.
  rewrite transform_stage_run. unfold prestep.
  assert (Hnone : forall sw, filter is_open_read (stage_events tf sw ps) = []).
  { intros sw. apply length_zero_iff_nil.
    apply (stage_events_count is_open_read); reflexivity. }
  destruct (remove_stop_words tf).
  - destruct (read_json stopwords_json) as [sw|]; simpl; rewrite new_events_log.
    + simpl. now rewrite Hnone.
    + reflexivity.
  - simpl. rewrite new_events_log. apply Hnone.
Qed.

(** Over a batch the list is loaded once per document. *)
Lemma transform_loads_once_per_document (flags : FlagContainer)
  (data : list (Document * pystr)) (sw : list pystr) (w : World) :
  remove_stop_words (text_flags flags) = true ->
  read_json stopwords_json = Some sw ->
  count is_open_read (new_events w (snd (_transform read_json data flags w)))
  = List.length data.
Proof.
  intros Hflag Hres. rewrite transform_run. unfold prestep. rewrite Hflag, Hres.
  simpl. rewrite new_events_log.
  induction data as [|d data IH]; simpl; auto.
  unfold document_events at 1.
  rewrite !count_app, IH, filter_events_count, stage_events_count by reflexivity.
  reflexivity.
Qed.

(** C5, as amended.  With [remove_stop_words] set, every call of the Text
    Transform Stage (one per document) opens the fixed resource
    [stopwords.json] exactly once, whatever the number of paragraphs.  When
    the resource cannot be loaded the call raises before any paragraph is
    looked at; a run over a batch that is not empty then raises at the
    first document of the batch, once extraction is over and the filter
    rules have run on that document, without any text transform having
    been called and without the artifact having been touched.  With the
    extraction of the specification the first document is the first source
    and every source has been read by then. *)
Theorem stopwords_loaded_once_and_fatal (data_dir dest_dir : pystr) (flags : FlagContainer) :
  remove_stop_words (text_flags flags) = true ->
  (forall (ps : list Paragraph) (w : World),
      filter is_open_read (new_events w (snd (stage ps (text_flags flags) w)))
      = [EvOpenRead (py "stopwords.json")])
  /\ (read_json (py "stopwords.json") = None ->
      (forall (ps : list Paragraph) (w : World),
          stage ps (text_flags flags) w
          = (Raise (ResourceError (py "stopwords.json")),
             log w [EvOpenRead (py "stopwords.json")]))
      /\ (forall (w w1 : World) (first : Document * pystr)
                 (others : list (Document * pystr)),
            BaseETL._extract data_dir w = (Ok (first :: others), w1) ->
            let es := filter_events (paragraph_flags flags) (paragraphs (fst first))
                      ++ [EvOpenRead (py "stopwords.json")] in
            run data_dir dest_dir flags w
            = (Raise (ResourceError (py "stopwords.json")), log w1 es)
            /\ count is_text_call es = 0
            /\ count touches_artifact es = 0)
      /\ (forall (w : World) (file : pystr) (files : list pystr),
            list_sources data_dir = file :: files ->
            all_parse parse_docx data_dir (list_sources data_dir) = true ->
            exists doc,
              parse_docx data_dir file = Some doc
              /\ spec_run data_dir dest_dir flags w
                 = (Raise (ResourceError (py "stopwords.json")),
                    log w (map EvReadDocument (file :: files)
                           ++ filter_events (paragraph_flags flags) (paragraphs doc)
                           ++ [EvOpenRead (py "stopwords.json")])))).
Proof.
  intros Hflag. split.
  - intros ps w. rewrite stage_open_reads, Hflag. reflexivity.
  - intros Hres. fold stopwords_json in *.
    assert (Hfirst : forall (B : BaseETL.t) (w w1 : World) (first : Document * pystr)
                            (others : list (Document * pystr)),
               BaseETL._extract data_dir w = (Ok (first :: others), w1) ->
               _execute_etl (Base := B) read_json jsonpickle_encode file_write
                 data_dir dest_dir flags w
               = (Raise (ResourceError stopwords_json),
                  log w1 (filter_events (paragraph_flags flags) (paragraphs (fst first))
                          ++ [EvOpenRead stopwords_json]))).
    { intros B w w1 first others Hex.
      pose proof (execute_etl_phases (Base := B) read_json jsonpickle_encode file_write
                    data_dir dest_dir flags w) as Hph.
      rewrite Hex in Hph. rewrite transform_run in Hph.
      unfold prestep in Hph. rewrite Hflag, Hres in Hph. exact Hph. }
    split; [|split].
    + intros ps w. rewrite transform_stage_run. unfold prestep.
      now rewrite Hflag, Hres.
    + intros w w1 first others Hex. cbv zeta.
      split; [now apply (Hfirst _ w w1 first others)|].
      split; rewrite count_app, filter_events_count by reflexivity; reflexivity.
    + intros w file files Hsrc Hparse.
      pose proof (spec_run_extraction data_dir dest_dir flags w) as Hex.
      rewrite Hparse in Hex. destruct Hex as (data & Hnames & Hparsed & Hex).
      rewrite Hsrc in Hnames.
      destruct data as [|[doc name] data]; [discriminate|].
      cbn [map snd] in Hnames. injection Hnames as Hname Hrest. subst name.
      exists doc. split; [now inversion Hparsed|].
      rewrite (Hfirst _ w _ _ _ Hex), log_log, Hsrc. reflexivity.
Qed.

End OrchestratorClaims.

(* ================================================================== *)
(** * The interactive configurator *)
(* ================================================================== *)

Section Configurator.

Variable unicode_lower : pystr -> nat -> pystr.

(** What the Unicode database guarantees and the prompts rely on: the
    lowercase form of a code point outside ASCII is not empty and is
    neither "y" nor "n". *)
Hypothesis unicode_lower_yn :
  forall (s : pystr) (i : nat) (c : char),
    nth_error s i = Some c -> (128 <= c)%N ->
    unicode_lower s i <> [] /\ unicode_lower s i <> py "y" /\ unicode_lower s i <> py "n".

Lemma nth_error_here (pre rest : pystr) (c : char) :
  nth_error (pre ++ c :: rest) (List.length pre) = Some c.
Proof. induction pre; simpl; auto. Qed.

Lemma lower_from_nil (pre rest : pystr) :
  lower_from unicode_lower (pre ++ rest) (List.length pre) rest = [] -> rest = [].
Proof.
  destruct rest as [|c r]; simpl; auto.
  intros H. apply app_eq_nil in H as [H _].
  destruct (c <? 128)%N eqn:Hc; [discriminate|].
  apply N.ltb_ge in Hc.
  destruct (@unicode_lower_yn _ _ _ (nth_error_here pre r c) Hc) as [Hne _].
  contradiction.
Qed.

Lemma lower_from_single (pre rest : pystr) (x : char) :
  lower_from unicode_lower (pre ++ rest) (List.length pre) rest = [x] ->
  (x = 121%N \/ x = 110%N) ->
  rest = [x] \/ rest = [(x - 32)%N].
Proof.
  destruct rest as [|c r]; simpl; [discriminate|].
  intros H Hx.
  assert (Hr : lower_from unicode_lower (pre ++ c :: r) (S (List.length pre)) r = []
               -> r = []).
  { intros Hnil. apply (lower_from_nil (pre ++ [c]) r).
    rewrite <- app_assoc, length_app, Nat.add_1_r. exact Hnil. }
  destruct (c <? 128)%N eqn:Hc.
  - simpl in H. injection H as Hc1 Hnil.
    apply Hr in Hnil. subst r.
    unfold ascii_lower in Hc1.
    destruct ((65 <=? c)%N && (c <=? 90)%N) eqn:Hup.
    + right. f_equal. lia.
    + left. congruence.
  - apply N.ltb_ge in Hc.
    destruct (@unicode_lower_yn _ _ _ (nth_error_here pre r c) Hc)
      as (Hne & Hy & Hn).
    destruct (unicode_lower (pre ++ c :: r) (List.length pre)) as [|u us] eqn:Hu;
      [contradiction|].
    simpl in H. injection H as Hux Hrest.
    apply app_eq_nil in Hrest as [Hus _]. subst us u.
    destruct Hx as [-> | ->]; [now elim Hy | now elim Hn].
Qed.

(** The answers taken as yes are "y" and "Y" and no other string; the
    answers taken as no are "n" and "N". *)
Lemma lower_is_y (s : pystr) :
  PyStr.eqb (lower unicode_lower s) (py "y") = true <-> s = py "y" \/ s = py "Y".
Proof.
  rewrite pystr_eqb_eq. split.
  - intros H. apply (lower_from_single [] s) in H; [|now left]. exact H.
  - intros [-> | ->]; reflexivity.
Qed.

Lemma lower_is_n (s : pystr) :
  PyStr.eqb (lower unicode_lower s) (py "n") = true <-> s = py "n" \/ s = py "N".
Proof.
  rewrite pystr_eqb_eq. split.
  - intros H. apply (lower_from_single [] s) in H; [|now right]. exact H.
  - intros [-> | ->]; reflexivity.
Qed.

Lemma configure_flag_invalid (question answer : pystr) (rest : list pystr)
  (tr : list event) :
  answer <> py "y" -> answer <> py "Y" -> answer <> py "n" -> answer <> py "N" ->
  configure_flag_from unicode_lower question (answer :: rest) tr
  = configure_flag_from unicode_lower question rest
      (tr ++ [EvInput (question ++ py " (y/n) "); EvPrint invalid_yn]).
Proof.
  intros Hy HY Hn HN. cbn [configure_flag_from].
  destruct (PyStr.eqb (lower unicode_lower answer) (py "y")) eqn:Ey.
  { apply lower_is_y in Ey as [|]; contradiction. }
  destruct (PyStr.eqb (lower unicode_lower answer) (py "n")) eqn:En.
  { apply lower_is_n in En as [|]; contradiction. }
  reflexivity.
Qed.

(** C8.  The pipeline prompt returns on "1", "2" and "3" with the three
    pipeline types and on any other line prints the complaint and asks
    again with the rest of the input; a flag question returns true on "y"
    and "Y", false on "n" and "N", and on any other line prints the
    complaint and asks the same question again; during the walk such a line
    leaves the walk at the same key with the same dictionary. *)
Theorem prompts_accept_exactly (question answer : pystr) (rest : list pystr)
  (tr : list event) :
  (answer = py "1" ->
   ask_for_pipeline_from (answer :: rest) tr
   = (Ok DEFAULT_DYNAMIC,
      {| stdin := rest;
         trace := tr ++ pipeline_menu
                  ++ [EvPrint (py "Using default parameters for ETL...")] |}))
  /\ (answer = py "2" ->
      ask_for_pipeline_from (answer :: rest) tr
      = (Ok CUSTOM_DYNAMIC, {| stdin := rest; trace := tr ++ pipeline_menu |}))
  /\ (answer = py "3" ->
      ask_for_pipeline_from (answer :: rest) tr
      = (Ok DEMO, {| stdin := rest; trace := tr ++ pipeline_menu |}))
  /\ (answer <> py "1" -> answer <> py "2" -> answer <> py "3" ->
      ask_for_pipeline_from (answer :: rest) tr
      = ask_for_pipeline_from rest
          (tr ++ pipeline_menu ++ [EvPrint (py "Invalid answer.")]))
  /\ (answer = py "y" \/ answer = py "Y" ->
      configure_flag_from unicode_lower question (answer :: rest) tr
      = (Ok true,
         {| stdin := rest; trace := tr ++ [EvInput (question ++ py " (y/n) ")] |}))
  /\ (answer = py "n" \/ answer = py "N" ->
      configure_flag_from unicode_lower question (answer :: rest) tr
      = (Ok false,
         {| stdin := rest; trace := tr ++ [EvInput (question ++ py " (y/n) ")] |}))
  /\ (answer <> py "y" -> answer <> py "Y" -> answer <> py "n" -> answer <> py "N" ->
      configure_flag_from unicode_lower question (answer :: rest) tr
      = configure_flag_from unicode_lower question rest
          (tr ++ [EvInput (question ++ py " (y/n) "); EvPrint invalid_yn])
      /\ forall (key : pystr) (ks : list pystr) (flag_dict : dict),
          PyStr.eqb key (py "apply_lemmatization") = false
          \/ dict_get flag_dict (py "apply_stemming") = Some false ->
          configure_keys unicode_lower (key :: ks) flag_dict
            {| stdin := answer :: rest; trace := tr |}
          = configure_keys unicode_lower (key :: ks) flag_dict
              {| stdin := rest;
                 trace := tr ++ [EvInput (specific_question key ++ py " (y/n) ");
                                 EvPrint invalid_yn] |}).
Proof.
  repeat apply conj.
  - intros ->. reflexivity.
  - intros ->. reflexivity.
  - intros ->. reflexivity.
  - intros H1 H2 H3. cbn [ask_for_pipeline_from].
    apply pystr_eqb_neq in H1, H2, H3. rewrite H1, H2, H3. reflexivity.
  - intros [-> | ->]; reflexivity.
  - intros [-> | ->]; reflexivity.
  - intros Hy HY Hn HN. split; [now apply configure_flag_invalid|].
    intros key ks flag_dict Hasked.
    assert (Hflag : configure_flag unicode_lower (specific_question key)
                      {| stdin := answer :: rest; trace := tr |}
                    = configure_flag unicode_lower (specific_question key)
                        {| stdin := rest;
                           trace := tr ++ [EvInput (specific_question key ++ py " (y/n) ");
                                           EvPrint invalid_yn] |}).
    { unfold configure_flag; cbn [stdin trace]. now apply configure_flag_invalid. }
    cbn [configure_keys].
    destruct Hasked as [Hkey | Hstem].
    + rewrite Hkey. unfold bind. now rewrite Hflag.
    + rewrite Hstem.
      destruct (PyStr.eqb key (py "apply_lemmatization"));
        unfold bind; now rewrite Hflag.
Qed.

End Configurator.

(** ** The question of each flag *)

Lemma split_on_not_nil (sep : char) (s : pystr) : split_on sep s <> [].
Proof.
  induction s as [|c r IH]; simpl; [discriminate|].
  destruct (char_eqb c sep); [discriminate|].
  destruct (split_on sep r); [contradiction | discriminate].
Qed.

Lemma join_cons_char (sep : pystr) (c : char) (h : pystr) (t : list pystr) :
  join sep ((c :: h) :: t) = c :: join sep (h :: t).
Proof. destruct t; reflexivity. Qed.

(** Splitting at the underscores and joining with spaces replaces every
    underscore by a space. *)
Lemma join_split_underscores (key : pystr) :
  join (py " ") (split_on 95%N key) = underscores_to_spaces key.
Proof.
  induction key as [|c r IH]; [reflexivity|].
  cbn [split_on underscores_to_spaces map].
  fold (underscores_to_spaces r). rewrite <- IH.
  pose proof (split_on_not_nil 95%N r) as Hne.
  destruct (char_eqb c 95%N).
  - destruct (split_on 95%N r) as [|h t]; [contradiction|]. reflexivity.
  - destruct (split_on 95%N r) as [|h t]; [contradiction|].
    apply join_cons_char.
Qed.

Lemma specific_question_eq (key : pystr) :
  specific_question key
  = py "Do you want to " ++ rstrip (underscores_to_spaces key) ++ py "?".
Proof. unfold specific_question. now rewrite join_split_underscores. Qed.

Lemma specific_question_flags :
  Forall (fun id => specific_question id = question_text id) flag_identifiers.
Proof. repeat constructor. Qed.

Section ConfigurationWalk.

Variable unicode_lower : pystr -> nat -> pystr.

Lemma configure_flag_from_events (question : pystr) (lines : list pystr) :
  forall tr : list event,
  exists es,
    trace (snd (configure_flag_from unicode_lower question lines tr)) = tr ++ es
    /\ Forall (question_event question) es.
Proof.
  induction lines as [|a rest IH]; intros tr; cbn [configure_flag_from].
  - eexists. split; [reflexivity|]. repeat constructor.
  - destruct (PyStr.eqb (lower unicode_lower a) (py "y")).
    { eexists. split; [reflexivity|]. repeat constructor. }
    destruct (PyStr.eqb (lower unicode_lower a) (py "n")).
    { eexists. split; [reflexivity|]. repeat constructor. }
    destruct (IH (tr ++ [EvInput (question ++ py " (y/n) "); EvPrint invalid_yn]))
      as (es & Hes & Hall).
    exists ([EvInput (question ++ py " (y/n) "); EvPrint invalid_yn] ++ es).
    split.
    + rewrite Hes, <- app_assoc. reflexivity.
    + apply Forall_app. split; [|exact Hall].
      constructor; [now left|]. constructor; [now right|]. constructor.
Qed.

(** Every event of a walk over [ks] belongs to the question of one of
    those keys. *)
Lemma configure_keys_events (ks : list pystr) :
  forall (flag_dict : dict) (w : World),
  exists es,
    trace (snd (configure_keys unicode_lower ks flag_dict w)) = trace w ++ es
    /\ Forall (fun e => exists key, In key ks
                                    /\ question_event (specific_question key) e) es.
Proof.
  induction ks as [|key rest IH]; intros flag_dict w.
  - exists []. simpl. now rewrite app_nil_r.
  - assert (Hask :
      exists es,
        trace (snd (bind (configure_flag unicode_lower (specific_question key))
                      (fun answer =>
                         configure_keys unicode_lower rest
                           (dict_set flag_dict key answer)) w))
        = trace w ++ es
        /\ Forall (fun e => exists k, In k (key :: rest)
                                      /\ question_event (specific_question k) e) es).
    { unfold bind, configure_flag.
      destruct (configure_flag_from_events (specific_question key) (stdin w) (trace w))
        as (es1 & Hes1 & Hall1).
      destruct (configure_flag_from unicode_lower (specific_question key)
                  (stdin w) (trace w)) as [[answer|e] w1]; simpl in Hes1.
      - destruct (IH (dict_set flag_dict key answer) w1) as (es2 & Hes2 & Hall2).
        exists (es1 ++ es2). split.
        + rewrite Hes2, Hes1, app_assoc. reflexivity.
        + apply Forall_app. split.
          * eapply Forall_impl; [|exact Hall1]. intros e He. exists key. simpl. auto.
          * eapply Forall_impl; [|exact Hall2]. intros e (k & Hk & He).
            exists k. simpl. auto.
      - exists es1. split; [exact Hes1|].
        eapply Forall_impl; [|exact Hall1]. intros e0 He. exists key. simpl. auto. }
    cbn [configure_keys].
    destruct (PyStr.eqb key (py "apply_lemmatization")); [|exact Hask].
    destruct (dict_get flag_dict (py "apply_stemming")) as [[|]|].
    + destruct (IH (dict_set flag_dict key false) w) as (es & Hes & Hall).
      exists es. split; [exact Hes|].
      eapply Forall_impl; [|exact Hall]. intros e (k & Hk & He).
      exists k. simpl. auto.
    + exact Hask.
    + exists []. unfold raise. simpl. now rewrite app_nil_r.
Qed.

Lemma new_events_trace (w w' : World) (es : list event) :
  trace w' = trace w ++ es -> new_events w w' = es.
Proof.
  intros H. unfold new_events. rewrite H. clear H.
  induction (trace w); simpl; auto.
Qed.

Lemma configure_flag_from_prompts (question : pystr) (lines : list pystr)
  (tr : list event) :
  exists es,
    trace (snd (configure_flag_from unicode_lower question lines tr))
    = tr ++ EvInput (question ++ py " (y/n) ") :: es
    /\ Forall (question_event question) es.
Proof.
  destruct lines as [|a rest]; cbn [configure_flag_from].
  - exists []. split; [reflexivity | constructor].
  - destruct (PyStr.eqb (lower unicode_lower a) (py "y")).
    { exists []. split; [reflexivity | constructor]. }
    destruct (PyStr.eqb (lower unicode_lower a) (py "n")).
    { exists []. split; [reflexivity | constructor]. }
    destruct (configure_flag_from_events question rest
                (tr ++ [EvInput (question ++ py " (y/n) "); EvPrint invalid_yn]))
      as (es & Hes & Hall).
    exists (EvPrint invalid_yn :: es). split.
    + rewrite Hes, <- app_assoc. reflexivity.
    + constructor; [now right | exact Hall].
Qed.

(** The events of a walk over flags, flag by flag: one segment per key the
    walk has dealt with, in the order of the keys, each segment made of the
    question of its own key. *)
Lemma configure_keys_segments (ks : list pystr) :
  Forall (fun key => In key flag_identifiers) ks ->
  forall (flag_dict : dict) (w : World),
  exists segs,
    trace (snd (configure_keys unicode_lower ks flag_dict w)) = trace w ++ List.concat segs
    /\ List.length segs <= List.length ks
    /\ Forall2 flag_segment (firstn (List.length segs) ks) segs
    /\ (forall d', fst (configure_keys unicode_lower ks flag_dict w) = Ok d' ->
        List.length segs = List.length ks).
Proof.
  induction 1 as [|key rest Hkey Hrest IH]; intros flag_dict w.
  - exists []. simpl. rewrite app_nil_r. repeat split; auto.
  - assert (Hq : specific_question key = question_text key).
    { pose proof specific_question_flags as H. rewrite Forall_forall in H. now apply H. }
    assert (Hask :
      exists segs,
        trace (snd (bind (configure_flag unicode_lower (specific_question key))
                      (fun answer =>
                         configure_keys unicode_lower rest
                           (dict_set flag_dict key answer)) w))
        = trace w ++ List.concat segs
        /\ List.length segs <= List.length (key :: rest)
        /\ Forall2 flag_segment (firstn (List.length segs) (key :: rest)) segs
        /\ (forall d',
              fst (bind (configure_flag unicode_lower (specific_question key))
                     (fun answer =>
                        configure_keys unicode_lower rest
                          (dict_set flag_dict key answer)) w) = Ok d' ->
              List.length segs = List.length (key :: rest))).
    { unfold bind, configure_flag. rewrite Hq.
      destruct (configure_flag_from_prompts (question_text key) (stdin w) (trace w))
        as (es1 & Hes1 & Hall1).
      assert (Hseg : flag_segment key
                       (EvInput (question_text key ++ py " (y/n) ") :: es1)).
      { right. exists es1. split; [reflexivity | exact Hall1]. }
      destruct (configure_flag_from unicode_lower (question_text key)
                  (stdin w) (trace w)) as [[answer|e] w1]; cbn [snd] in Hes1.
      - destruct (IH (dict_set flag_dict key answer) w1)
          as (segs & Hes & Hlen & Hall & Hok).
        exists ((EvInput (question_text key ++ py " (y/n) ") :: es1) :: segs).
        split; [|split; [|split]].
        + rewrite Hes, Hes1. cbn [List.concat]. now rewrite <- app_assoc.
        + simpl. lia.
        + cbn [List.length firstn]. constructor; assumption.
        + intros d' Hd. simpl. f_equal. now apply (Hok d').
      - exists [EvInput (question_text key ++ py " (y/n) ") :: es1].
        split; [|split; [|split]].
        + cbn [snd List.concat]. now rewrite app_nil_r.
        + simpl. lia.
        + cbn [List.length firstn]. constructor; [assumption | constructor].
        + intros d' Hd. discriminate. }
    cbn [configure_keys].
    destruct (PyStr.eqb key (py "apply_lemmatization")) eqn:Ekey; [|exact Hask].
    destruct (dict_get flag_dict (py "apply_stemming")) as [[|]|].
    + destruct (IH (dict_set flag_dict key false) w) as (segs & Hes & Hlen & Hall & Hok).
      exists ([] :: segs). split; [|split; [|split]].
      * exact Hes.
      * simpl. lia.
      * cbn [List.length firstn]. constructor; [|assumption].
        left. split; [reflexivity|]. now apply pystr_eqb_eq.
      * intros d' Hd. simpl. f_equal. now apply (Hok d').
    + exact Hask.
    + exists []. unfold raise. simpl. rewrite app_nil_r.
      repeat split; auto; try lia; try constructor. intros d' Hd. discriminate.
Qed.

Variable text_flag_order : list pystr.

Lemma keys_text_flags_dict (f : TextFlags) :
  keys (text_flags_dict text_flag_order f) = text_flag_order.
Proof.
  unfold keys, text_flags_dict. rewrite map_map. cbn [fst]. apply map_id.
Qed.

Lemma text_flag_order_identifiers :
  Permutation text_flag_order text_flag_names ->
  Forall (fun key => In key flag_identifiers) text_flag_order.
Proof.
  intros Hperm. apply Forall_forall. intros key Hin.
  apply (Permutation_in _ Hperm) in Hin.
  unfold text_flag_names, flag_identifiers in *. simpl in *. tauto.
Qed.

Lemma paragraph_keys_identifiers (f : ParagraphFlags) :
  Forall (fun key => In key flag_identifiers) (keys (paragraph_flags_dict f)).
Proof. repeat constructor; simpl; tauto. Qed.

(** C9.  The events of the custom walk, after its two notices, fall into
    segments, one per flag the walk has dealt with, in the order of the
    flags (the text flags in their order, then the paragraph flags).  The
    segment of a flag starts with the prompt that shows the question of
    that very flag: "Do you want to ", the identifier with every underscore
    replaced by a space, "?", followed by the answer hint " (y/n) "; the
    rest of it is complaints about answers and the same prompt again.  Only
    [apply_lemmatization] may have an empty segment.  A walk that returns
    has dealt with all eight flags. *)
Theorem question_derivation (flags : FlagContainer) (w : World) :
  Permutation text_flag_order text_flag_names ->
  exists segs,
    new_events w (snd (configure_dynamic_etl unicode_lower text_flag_order flags w))
    = [EvPrint (repeat 10%N 100); EvPrint (py "--- Define the parameters ---")]
      ++ List.concat segs
    /\ Forall2
         (fun key seg =>
            (seg = [] /\ key = py "apply_lemmatization")
            \/ exists es,
                 seg = EvInput ((py "Do you want to " ++ underscores_to_spaces key
                                 ++ py "?") ++ py " (y/n) ") :: es
                 /\ Forall (question_event (py "Do you want to "
                                            ++ underscores_to_spaces key ++ py "?")) es)
         (firstn (List.length segs)
            (text_flag_order ++ keys (paragraph_flags_dict (paragraph_flags flags))))
         segs
    /\ (forall r,
          fst (configure_dynamic_etl unicode_lower text_flag_order flags w) = Ok r ->
          List.length segs = 8).
Proof.
  intros Hperm.
  change (fun key seg =>
            (seg = [] /\ key = py "apply_lemmatization")
            \/ exists es,
                 seg = EvInput ((py "Do you want to " ++ underscores_to_spaces key
                                 ++ py "?") ++ py " (y/n) ") :: es
                 /\ Forall (question_event (py "Do you want to "
                                            ++ underscores_to_spaces key ++ py "?")) es)
    with flag_segment.
  pose proof (Permutation_length Hperm) as Hlen4. cbn in Hlen4.
  unfold configure_dynamic_etl, configure_from_flags, bind, print, emit.
  rewrite keys_text_flags_dict.
  set (w1 := log (log w _) _).
  assert (Hw1 : trace w1 = trace w ++ [EvPrint (repeat 10%N 100);
                                        EvPrint (py "--- Define the parameters ---")]).
  { unfold w1, log. cbn [trace]. now rewrite <- app_assoc. }
  destruct (configure_keys_segments (text_flag_order_identifiers Hperm)
              (text_flags_dict text_flag_order (text_flags flags)) w1)
    as (segs1 & Hes1 & Hle1 & Hall1 & Hok1).
  destruct (configure_keys unicode_lower text_flag_order
              (text_flags_dict text_flag_order (text_flags flags)) w1)
    as [[d1|e1] w2]; cbn [fst snd] in Hes1, Hok1.
  - specialize (Hok1 d1 eq_refl).
    destruct (configure_keys_segments
                (paragraph_keys_identifiers (paragraph_flags flags))
                (paragraph_flags_dict (paragraph_flags flags)) w2)
      as (segs2 & Hes2 & Hle2 & Hall2 & Hok2).
    exists (segs1 ++ segs2).
    destruct (configure_keys unicode_lower
                (keys (paragraph_flags_dict (paragraph_flags flags)))
                (paragraph_flags_dict (paragraph_flags flags)) w2) as [[d2|e2] w3];
      cbn [fst snd] in *; unfold ret; cbn [fst snd].
    + split; [|split].
      * apply new_events_trace.
        rewrite Hes2, Hes1, Hw1, List.concat_app, <- !app_assoc. reflexivity.
      * rewrite length_app, firstn_app, Hok1.
        rewrite firstn_all2 by lia.
        replace (List.length text_flag_order + List.length segs2
                 - List.length text_flag_order) with (List.length segs2) by lia.
        apply Forall2_app; [|exact Hall2].
        rewrite Hok1, firstn_all in Hall1. exact Hall1.
      * intros r Hr. rewrite length_app, Hok1, Hlen4, (Hok2 d2 eq_refl). reflexivity.
    + split; [|split].
      * apply new_events_trace.
        rewrite Hes2, Hes1, Hw1, List.concat_app, <- !app_assoc. reflexivity.
      * rewrite length_app, firstn_app, Hok1.
        rewrite firstn_all2 by lia.
        replace (List.length text_flag_order + List.length segs2
                 - List.length text_flag_order) with (List.length segs2) by lia.
        apply Forall2_app; [|exact Hall2].
        rewrite Hok1, firstn_all in Hall1. exact Hall1.
      * intros r Hr. discriminate Hr.
  - exists segs1. cbn [fst snd]. split; [|split].
    + apply new_events_trace. rewrite Hes1, Hw1, <- !app_assoc. reflexivity.
    + rewrite firstn_app.
      replace (List.length segs1 - List.length text_flag_order) with 0 by lia.
      cbn [firstn]. rewrite app_nil_r. exact Hall1.
    + intros r Hr. discriminate Hr.
Qed.

End ConfigurationWalk.

(** ** The guard on [apply_lemmatization] *)

(** When the dictionary holds a true [apply_stemming] at the moment the
    walk reaches [apply_lemmatization], the question is not asked and the
    flag is set to false. *)
Lemma lemmatization_forced_off (unicode_lower : pystr -> nat -> pystr)
  (ks : list pystr) (flag_dict : dict) (w : World) :
  dict_get flag_dict (py "apply_stemming") = Some true ->
  configure_keys unicode_lower (py "apply_lemmatization" :: ks) flag_dict w
  = configure_keys unicode_lower ks
      (dict_set flag_dict (py "apply_lemmatization") false) w.
Proof.
  intros H. cbn [configure_keys].
  rewrite pystr_eqb_refl, H. reflexivity.
Qed.

(* ================================================================== *)
(** * Runs on concrete inputs *)
(* ================================================================== *)

(** The first scenario of the specification: of an empty paragraph,
    "hi there" and "This is a real sentence." only the third is kept. *)
Example scenario_three_paragraphs :
  fst (__transform_paragraphs_from_doc (TM := Sample.text_rules) Sample.no_files
         [Sample.para EmptyString; Sample.para "hi there";
          Sample.para "This is a real sentence."]
         Sample.no_text_flags world0)
  = Ok [ {| obj_text := py "This is a real sentence."; obj_style := py "Normal" |} ].
Proof. reflexivity. Qed.

(** With both [apply_lemmatization] and [apply_stemming] set, both
    transforms are called on the one paragraph, stemming on the output of
    lemmatization. *)
Lemma lemma_and_stem_both_run :
  __transform_paragraphs_from_doc (TM := Sample.text_rules) Sample.no_files
    [Sample.para "one two three"] Sample.lemma_and_stem world0
  = (Ok [ {| obj_text := py "one two three/l/s"; obj_style := py "Normal" |} ],
     {| stdin := [];
        trace := [ EvPrint (py "applying lemmatization");
                   EvTextCall ApplyLemmatization (py "one two three");
                   EvPrint (py "applying stemming");
                   EvTextCall ApplyStemming (py "one two three/l") ] |})
  /\ ~ (count is_lemma_or_stem
          (new_events world0
             (snd (__transform_paragraphs_from_doc (TM := Sample.text_rules)
                     Sample.no_files [Sample.para "one two three"]
                     Sample.lemma_and_stem world0))) <= 1).
Proof. split; [reflexivity|]. vm_compute. lia. Qed.


(** The stop-word list is requested and cannot be loaded: the run raises
    only after the document has been read and the title rule has been
    applied to its paragraphs. *)
Lemma stopwords_failure_after_filter :
  _execute_etl (PM := Sample.paragraphs_rules) (TM := Sample.text_rules)
    (Base := BaseETL_spec Sample.one_source Sample.parse_all)
    Sample.no_files Sample.encode Sample.disk_ok
    (py "in") (py "out.json") Sample.title_and_stopwords world0
  = (Raise (ResourceError (py "stopwords.json")),
     {| stdin := [];
        trace := [ EvReadDocument (py "a.docx");
                   EvPrint (py "removing titlepage");
                   EvParagraphCall RemoveTitle (paragraphs Sample.doc);
                   EvOpenRead (py "stopwords.json") ] |})
  /\ ~ (count processes_document
          (new_events world0
             (snd (_execute_etl (PM := Sample.paragraphs_rules) (TM := Sample.text_rules)
                     (Base := BaseETL_spec Sample.one_source Sample.parse_all)
                     Sample.no_files Sample.encode Sample.disk_ok
                     (py "in") (py "out.json") Sample.title_and_stopwords world0)))
        = 0).
Proof. split; [reflexivity|]. vm_compute. discriminate. Qed.

(** Two sources, both parsed, the stop-word list missing: the run raises
    at the first of them, once both have been read. *)
Lemma stopwords_loaded_once_and_fatal_witness :
  remove_stop_words (text_flags Sample.title_and_stopwords) = true
  /\ Sample.no_files (py "stopwords.json") = None
  /\ Sample.two_sources (py "in") = [py "a.docx"; py "b.docx"]
  /\ all_parse Sample.parse_all (py "in") (Sample.two_sources (py "in")) = true
  /\ exists doc,
       Sample.parse_all (py "in") (py "a.docx") = Some doc
       /\ _execute_etl (PM := Sample.paragraphs_rules) (TM := Sample.text_rules)
            (Base := BaseETL_spec Sample.two_sources Sample.parse_all)
            Sample.no_files Sample.encode Sample.disk_ok
            (py "in") (py "out.json") Sample.title_and_stopwords world0
          = (Raise (ResourceError (py "stopwords.json")),
             log world0
               (map EvReadDocument [py "a.docx"; py "b.docx"]
                ++ filter_events (PM := Sample.paragraphs_rules)
                     (paragraph_flags Sample.title_and_stopwords) (paragraphs doc)
                ++ [EvOpenRead (py "stopwords.json")])).
Proof.
  split; [reflexivity|]. split; [reflexivity|]. split; [reflexivity|].
  split; [reflexivity|].
  exact (proj2 (proj2 (proj2 (stopwords_loaded_once_and_fatal
                                (PM := Sample.paragraphs_rules) (TM := Sample.text_rules)
                                (Base := BaseETL_spec Sample.two_sources Sample.parse_all)
                                Sample.no_files Sample.encode Sample.disk_ok
                                Sample.two_sources Sample.parse_all
                                (py "in") (py "out.json") Sample.title_and_stopwords
                                eq_refl)
                         eq_refl))
           world0 (py "a.docx") [py "b.docx"] eq_refl eq_refl).
Defined.

(** The second of three sources cannot be parsed: the run raises on it,
    having read two sources and done nothing else. *)
Lemma extraction_failure_aborts_witness :
  (exists file, In file (Sample.three_sources (py "in"))
                /\ Sample.parse_but_b (py "in") file = None)
  /\ exists file read,
      _execute_etl (PM := Sample.paragraphs_rules) (TM := Sample.text_rules)
        (Base := BaseETL_spec Sample.three_sources Sample.parse_but_b)
        Sample.no_files Sample.encode Sample.disk_ok
        (py "in") (py "out.json") Sample.no_flags world0
      = (Raise (ExtractionError file), log world0 (map EvReadDocument read))
      /\ In file (Sample.three_sources (py "in"))
      /\ Sample.parse_but_b (py "in") file = None
      /\ count touches_artifact (map EvReadDocument read) = 0
      /\ count is_paragraph_call (map EvReadDocument read) = 0
      /\ count is_text_call (map EvReadDocument read) = 0.
Proof.
  assert (Hbad : exists file, In file (Sample.three_sources (py "in"))
                              /\ Sample.parse_but_b (py "in") file = None).
  { exists (py "b.docx"). split; [right; left; reflexivity | reflexivity]. }
  split; [exact Hbad|].
  exact (proj2 (proj2 (extraction_failure_aborts
                         (PM := Sample.paragraphs_rules) (TM := Sample.text_rules)
                         (Base := BaseETL_spec Sample.three_sources Sample.parse_but_b)
                         Sample.no_files Sample.encode Sample.disk_ok
                         Sample.three_sources Sample.parse_but_b
                         (py "in") (py "out.json") Sample.no_flags world0)) Hbad).
Defined.

Example extraction_failure_run :
  _execute_etl (PM := Sample.paragraphs_rules) (TM := Sample.text_rules)
    (Base := BaseETL_spec Sample.three_sources Sample.parse_but_b)
    Sample.no_files Sample.encode Sample.disk_ok
    (py "in") (py "out.json") Sample.no_flags world0
  = (Raise (ExtractionError (py "b.docx")),
     {| stdin := [];
        trace := [EvReadDocument (py "a.docx"); EvReadDocument (py "b.docx")] |}).
Proof. reflexivity. Qed.

(** A run that gets as far as the write, on a destination that cannot be
    opened and on one where the write fails. *)
Example write_failure_runs :
  _execute_etl (PM := Sample.paragraphs_rules) (TM := Sample.text_rules)
    (Base := BaseETL_spec Sample.one_source Sample.parse_all)
    Sample.no_files Sample.encode Sample.disk_closed
    (py "in") (py "out.json") Sample.no_flags world0
  = (Raise (OSError (py "out.json")),
     {| stdin := []; trace := [EvReadDocument (py "a.docx")] |})
  /\ _execute_etl (PM := Sample.paragraphs_rules) (TM := Sample.text_rules)
       (Base := BaseETL_spec Sample.one_source Sample.parse_all)
       Sample.no_files Sample.encode Sample.disk_full
       (py "in") (py "out.json") Sample.no_flags world0
     = (Raise (OSError (py "out.json")),
        {| stdin := [];
           trace := [EvReadDocument (py "a.docx"); EvOpenTruncate (py "out.json")] |}).
Proof. split; reflexivity. Qed.

Lemma identity_lower_yn (s : pystr) (i : nat) (c : char) :
  nth_error s i = Some c -> (128 <= c)%N ->
  identity_lower s i <> [] /\ identity_lower s i <> py "y"
  /\ identity_lower s i <> py "n".
Proof.
  intros Hnth Hc. unfold identity_lower.
  rewrite (nth_error_nth s i 128%N Hnth).
  repeat split; try discriminate; intros H; injection H as H; simpl in H; lia.
Qed.

Lemma prompts_accept_exactly_witness :
  py "yes" <> py "y" /\ py "yes" <> py "Y" /\ py "yes" <> py "n" /\ py "yes" <> py "N"
  /\ configure_flag_from identity_lower (py "Do you want to apply stemming?")
       [py "yes"; py "Y"] []
     = configure_flag_from identity_lower (py "Do you want to apply stemming?")
         [py "Y"]
         ([] ++ [EvInput (py "Do you want to apply stemming?" ++ py " (y/n) ");
                 EvPrint invalid_yn]).
Proof.
  assert (H1 : py "yes" <> py "y") by discriminate.
  assert (H2 : py "yes" <> py "Y") by discriminate.
  assert (H3 : py "yes" <> py "n") by discriminate.
  assert (H4 : py "yes" <> py "N") by discriminate.
  split; [exact H1|]. split; [exact H2|]. split; [exact H3|]. split; [exact H4|].
  pose proof (@prompts_accept_exactly identity_lower (@identity_lower_yn)
                (py "Do you want to apply stemming?") (py "yes") [py "Y"] [])
    as (_ & _ & _ & _ & _ & _ & Hinvalid).
  exact (proj1 (Hinvalid H1 H2 H3 H4)).
Defined.


(* ================================================================== *)
(** * Further properties of the configurator *)
(* ================================================================== *)

(** ** Dictionaries *)

Lemma dict_get_set_same (d : dict) (key : pystr) (value : bool) :
  dict_get (dict_set d key value) key = Some value.
Proof.
  induction d as [|[k v] rest IH]; simpl.
  - now rewrite pystr_eqb_refl.
  - destruct (PyStr.eqb k key) eqn:E; simpl; rewrite E; auto.
Qed.

Lemma dict_get_set_other (d : dict) (key other : pystr) (value : bool) :
  key <> other -> dict_get (dict_set d key value) other = dict_get d other.
Proof.
  intros Hne. induction d as [|[k v] rest IH]; simpl.
  - apply pystr_eqb_neq in Hne. now rewrite Hne.
  - destruct (PyStr.eqb k key) eqn:E; simpl.
    + apply pystr_eqb_eq in E. subst k.
      apply pystr_eqb_neq in Hne. now rewrite Hne.
    + now rewrite IH.
Qed.

Lemma dict_get_none (d : dict) (key : pystr) :
  dict_get d key = None <-> ~ In key (keys d).
Proof.
  induction d as [|[k v] rest IH]; simpl.
  - tauto.
  - destruct (PyStr.eqb k key) eqn:E.
    + apply pystr_eqb_eq in E. split; [discriminate | intros H; elim H; auto].
    + apply pystr_eqb_neq in E. rewrite IH. tauto.
Qed.

Lemma keys_dict_set (d : dict) (key : pystr) (value : bool) :
  In key (keys d) -> keys (dict_set d key value) = keys d.
Proof.
  induction d as [|[k v] rest IH]; simpl; [tauto|].
  intros Hin. destruct (PyStr.eqb k key) eqn:E; simpl; [reflexivity|].
  apply pystr_eqb_neq in E. f_equal. apply IH. tauto.
Qed.

Lemma dict_set_middle (pre suf : dict) (key : pystr) (old value : bool) :
  ~ In key (keys pre) ->
  dict_set (pre ++ (key, old) :: suf) key value = pre ++ (key, value) :: suf.
Proof.
  induction pre as [|[k v] pre IH]; simpl; intros Hnot.
  - now rewrite pystr_eqb_refl.
  - destruct (PyStr.eqb k key) eqn:E.
    + apply pystr_eqb_eq in E. tauto.
    + rewrite IH; tauto.
Qed.

Section WalkProperties.

Variable unicode_lower : pystr -> nat -> pystr.

(** A flag question raises nothing but [EOFError]. *)
Lemma configure_flag_raises (question : pystr) (lines : list pystr) :
  forall (tr : list event) (e : exn) (w' : World),
    configure_flag_from unicode_lower question lines tr = (Raise e, w') ->
    e = EOFError.
Proof.
  induction lines as [|a rest IH]; intros tr e w'; cbn [configure_flag_from].
  - congruence.
  - destruct (PyStr.eqb (lower unicode_lower a) (py "y")); [discriminate|].
    destruct (PyStr.eqb (lower unicode_lower a) (py "n")); [discriminate|].
    apply IH.
Qed.

Lemma configure_flag_answer (question : pystr) (b : bool) (rest : list pystr)
  (tr : list event) :
  configure_flag unicode_lower question {| stdin := answer_line b :: rest; trace := tr |}
  = (Ok b, {| stdin := rest; trace := tr ++ [EvInput (question ++ py " (y/n) ")] |}).
Proof. destruct b; reflexivity. Qed.

(** What a walk over keys of the dictionary does to it: the keys stay as
    they are and a key outside the walk keeps its value; a walk raises
    nothing but [EOFError] and the [KeyError] of the guard. *)
Lemma configure_keys_frame (ks : list pystr) :
  forall (flag_dict : dict) (w : World),
    (forall key, In key ks -> In key (keys flag_dict)) ->
    match configure_keys unicode_lower ks flag_dict w with
    | (Ok d', _) =>
        keys d' = keys flag_dict
        /\ forall key, ~ In key ks -> dict_get d' key = dict_get flag_dict key
    | (Raise e, _) => e = EOFError \/ e = KeyError (py "apply_stemming")
    end.
Proof.
  induction ks as [|key rest IH]; intros flag_dict w Hin.
  - simpl. auto.
  - assert (Hask :
      match bind (configure_flag unicode_lower (specific_question key))
              (fun answer => configure_keys unicode_lower rest
                               (dict_set flag_dict key answer)) w with
      | (Ok d', _) =>
          keys d' = keys flag_dict
          /\ forall k, ~ In k (key :: rest) -> dict_get d' k = dict_get flag_dict k
      | (Raise e, _) => e = EOFError \/ e = KeyError (py "apply_stemming")
      end).
    { unfold bind, configure_flag.
      destruct (configure_flag_from unicode_lower (specific_question key)
                  (stdin w) (trace w)) as [[answer|e] w1] eqn:Hflag.
      - specialize (IH (dict_set flag_dict key answer) w1).
        rewrite keys_dict_set in IH by (apply Hin; now left).
        assert (Hrest : forall k, In k rest -> In k (keys flag_dict))
          by (intros k Hk; apply Hin; now right).
        specialize (IH Hrest).
        destruct (configure_keys unicode_lower rest (dict_set flag_dict key answer) w1)
          as [[d'|e] w2]; [|exact IH].
        destruct IH as [Hkeys Hframe]. split; [exact Hkeys|].
        intros k Hk. rewrite Hframe by (intros H; apply Hk; now right).
        apply dict_get_set_other. intros ->. apply Hk. now left.
      - left. eapply configure_flag_raises. exact Hflag. }
    cbn [configure_keys].
    destruct (PyStr.eqb key (py "apply_lemmatization")); [|exact Hask].
    destruct (dict_get flag_dict (py "apply_stemming")) as [[|]|].
    + specialize (IH (dict_set flag_dict key false) w).
      rewrite keys_dict_set in IH by (apply Hin; now left).
      assert (Hrest : forall k, In k rest -> In k (keys flag_dict))
        by (intros k Hk; apply Hin; now right).
      specialize (IH Hrest).
      destruct (configure_keys unicode_lower rest (dict_set flag_dict key false) w)
        as [[d'|e] w2]; [|exact IH].
      destruct IH as [Hkeys Hframe]. split; [exact Hkeys|].
      intros k Hk. rewrite Hframe by (intros H; apply Hk; now right).
      apply dict_get_set_other. intros ->. apply Hk. now left.
    + exact Hask.
    + unfold raise. now right.
Qed.

(** X1.  [configure_from_flags] returns a dictionary with the keys of its
    argument, in the same order, whatever the answers; and the only
    exceptions it raises are [EOFError], when the input ends, and
    [KeyError] for [apply_stemming]. *)
Theorem configure_from_flags_keeps_keys (flag_dict : dict) (w : World) :
  match fst (configure_from_flags unicode_lower flag_dict w) with
  | Ok d' => keys d' = keys flag_dict
  | Raise e => e = EOFError \/ e = KeyError (py "apply_stemming")
  end.
Proof.
  unfold configure_from_flags.
  pose proof (configure_keys_frame (keys flag_dict) flag_dict w (fun _ H => H)) as H.
  destruct (configure_keys unicode_lower (keys flag_dict) flag_dict w) as [[d'|e] w'];
    simpl; tauto.
Qed.

Lemma configure_keys_missing_stemming (ks : list pystr) :
  forall (flag_dict : dict) (w : World),
    In (py "apply_lemmatization") ks ->
    (forall key, In key ks -> In key (keys flag_dict)) ->
    dict_get flag_dict (py "apply_stemming") = None ->
    exists e w',
      configure_keys unicode_lower ks flag_dict w = (Raise e, w')
      /\ (e = KeyError (py "apply_stemming") \/ e = EOFError).
Proof.
  induction ks as [|key rest IH]; intros flag_dict w Hlem Hin Hnone; [destruct Hlem|].
  cbn [configure_keys].
  destruct (PyStr.eqb key (py "apply_lemmatization")) eqn:Ekey.
  - rewrite Hnone. unfold raise. eauto.
  - apply pystr_eqb_neq in Ekey.
    destruct Hlem as [Hlem | Hlem]; [congruence|].
    unfold bind, configure_flag.
    destruct (configure_flag_from unicode_lower (specific_question key)
                (stdin w) (trace w)) as [[answer|e] w1] eqn:Hflag.
    + apply IH; auto.
      * intros k Hk. rewrite keys_dict_set by (apply Hin; now left).
        apply Hin. now right.
      * rewrite dict_get_set_other; auto.
        intros ->. apply dict_get_none in Hnone. apply Hnone, Hin. now left.
    + exists e, w1. split; [reflexivity|]. right.
      eapply configure_flag_raises. exact Hflag.
Qed.

(** X2.  A dictionary that has the key [apply_lemmatization] and lacks the
    key [apply_stemming] is never configured: whatever the input, the walk
    raises, [KeyError] when it reaches [apply_lemmatization] or [EOFError]
    when the input ends before that. *)
Theorem configure_from_flags_missing_stemming (flag_dict : dict) (w : World) :
  In (py "apply_lemmatization") (keys flag_dict) ->
  dict_get flag_dict (py "apply_stemming") = None ->
  exists e w',
    configure_from_flags unicode_lower flag_dict w = (Raise e, w')
    /\ (e = KeyError (py "apply_stemming") \/ e = EOFError).
Proof.
  intros Hlem Hnone. unfold configure_from_flags.
  apply configure_keys_missing_stemming; auto.
Qed.

Lemma configure_keys_answers (suf : dict) :
  forall (pre : dict) (answers : list bool) (rest : list pystr) (tr : list event),
    NoDup (keys (pre ++ suf)) ->
    ~ In (py "apply_lemmatization") (keys suf) ->
    List.length answers = List.length suf ->
    configure_keys unicode_lower (keys suf) (pre ++ suf)
      {| stdin := map answer_line answers ++ rest; trace := tr |}
    = (Ok (pre ++ combine (keys suf) answers),
       {| stdin := rest; trace := tr ++ map prompt_of (keys suf) |}).
Proof.
  induction suf as [|[k v] suf IH]; intros pre answers rest tr Hnd Hlem Hlen.
  - destruct answers; [|discriminate]. simpl. unfold ret.
    now rewrite !app_nil_r.
  - destruct answers as [|a answers]; [discriminate|].
    cbn [keys map fst configure_keys].
    assert (Ek : PyStr.eqb k (py "apply_lemmatization") = false).
    { apply pystr_eqb_neq. intros ->. apply Hlem. now left. }
    rewrite Ek. unfold bind. cbn [map app].
    rewrite configure_flag_answer.
    assert (Hpre : ~ In k (keys pre)).
    { unfold keys in *. rewrite map_app in Hnd. cbn [map fst] in Hnd.
      apply NoDup_remove_2 in Hnd. intros H. apply Hnd. apply in_or_app. now left. }
    rewrite dict_set_middle by exact Hpre.
    replace (pre ++ (k, a) :: suf) with ((pre ++ [(k, a)]) ++ suf)
      by (now rewrite <- app_assoc).
    fold (keys suf). rewrite IH.
    + cbn [combine]. rewrite <- !app_assoc. reflexivity.
    + unfold keys in *. rewrite <- app_assoc. cbn [app].
      rewrite map_app in *. exact Hnd.
    + intros H. apply Hlem. now right.
    + simpl in Hlen. lia.
Qed.

(** X3.  On a dictionary with distinct keys, none of them
    [apply_lemmatization], and an input that begins with one "y" or "n" per
    key, [configure_from_flags] asks one question per key, in the order of
    the dictionary, and returns the dictionary of the answers, whatever the
    values at the start; the rest of the input is left unread. *)
Theorem configure_from_flags_answers (flag_dict : dict) (answers : list bool)
  (rest : list pystr) (tr : list event) :
  NoDup (keys flag_dict) ->
  ~ In (py "apply_lemmatization") (keys flag_dict) ->
  List.length answers = List.length flag_dict ->
  configure_from_flags unicode_lower flag_dict
    {| stdin := map answer_line answers ++ rest; trace := tr |}
  = (Ok (combine (keys flag_dict) answers),
     {| stdin := rest; trace := tr ++ map prompt_of (keys flag_dict) |}).
Proof.
  intros Hnd Hlem Hlen. unfold configure_from_flags.
  exact (@configure_keys_answers flag_dict [] answers rest tr Hnd Hlem Hlen).
Qed.

End WalkProperties.

Section PromptLoops.

Variable unicode_lower : pystr -> nat -> pystr.
Variable text_flag_order : list pystr.

Lemma configure_keys_ask (key : pystr) (ks : list pystr) (flag_dict : dict)
  (a : bool) (rest : list pystr) (tr : list event) :
  PyStr.eqb key (py "apply_lemmatization") = false
  \/ dict_get flag_dict (py "apply_stemming") = Some false ->
  configure_keys unicode_lower (key :: ks) flag_dict
    {| stdin := answer_line a :: rest; trace := tr |}
  = configure_keys unicode_lower ks (dict_set flag_dict key a)
      {| stdin := rest; trace := tr ++ [prompt_of key] |}.
Proof.
  intros Hasked. cbn [configure_keys].
  assert (Hask : bind (configure_flag unicode_lower (specific_question key))
                   (fun answer => configure_keys unicode_lower ks
                                    (dict_set flag_dict key answer))
                   {| stdin := answer_line a :: rest; trace := tr |}
                 = configure_keys unicode_lower ks (dict_set flag_dict key a)
                     {| stdin := rest; trace := tr ++ [prompt_of key] |}).
  { unfold bind. now rewrite configure_flag_answer. }
  destruct Hasked as [Hkey | Hstem].
  - now rewrite Hkey.
  - rewrite Hstem. now destruct (PyStr.eqb key (py "apply_lemmatization")).
Qed.

Lemma dict_get_app_left (pre suf : dict) (key : pystr) (value : bool) :
  dict_get pre key = Some value -> dict_get (pre ++ suf) key = Some value.
Proof.
  induction pre as [|[k v] pre IH]; simpl; [discriminate|].
  destruct (PyStr.eqb k key); auto.
Qed.

Lemma dict_get_app_last (pre : dict) (key : pystr) (value : bool) :
  ~ In key (keys pre) -> dict_get (pre ++ [(key, value)]) key = Some value.
Proof.
  induction pre as [|[k v] pre IH]; simpl; intros Hnot.
  - now rewrite pystr_eqb_refl.
  - destruct (PyStr.eqb k key) eqn:E.
    + apply pystr_eqb_eq in E. tauto.
    + apply IH. tauto.
Qed.

Lemma nodup_keys_middle (pre suf : dict) (key : pystr) (old value : bool) :
  NoDup (keys (pre ++ (key, old) :: suf)) ->
  ~ In key (keys pre) /\ NoDup (keys ((pre ++ [(key, value)]) ++ suf)).
Proof.
  unfold keys. rewrite <- app_assoc, !map_app. cbn [map fst app]. intros Hnd. split.
  - apply NoDup_remove_2 in Hnd. intros H. apply Hnd. apply in_or_app. now left.
  - exact Hnd.
Qed.

Section AnswersInOrder.

Variable ans : pystr -> bool.

(** The walk once [apply_stemming] has been answered. *)
Lemma walk_after_stemming (suf : dict) :
  forall (pre : dict) (rest : list pystr) (tr : list event),
    NoDup (keys (pre ++ suf)) ->
    dict_get pre (py "apply_stemming") = Some (ans (py "apply_stemming")) ->
    configure_keys unicode_lower (keys suf) (pre ++ suf)
      {| stdin := map (fun key => answer_line (ans key)) (asked_keys ans (keys suf))
                  ++ rest;
         trace := tr |}
    = (Ok (pre ++ map (fun key => (key, answered ans key)) (keys suf)),
       {| stdin := rest; trace := tr ++ map prompt_of (asked_keys ans (keys suf)) |}).
Proof.
  induction suf as [|[k v] suf IH]; intros pre rest tr Hnd Hstem.
  - unfold asked_keys. destruct (ans (py "apply_stemming"));
      cbn [keys map fst filter configure_keys app]; unfold ret;
      now rewrite !app_nil_r.
  - destruct (nodup_keys_middle pre suf k v (answered ans k) Hnd) as [Hpre Hnd'].
    assert (Hstem' : dict_get (pre ++ [(k, answered ans k)]) (py "apply_stemming")
                     = Some (ans (py "apply_stemming")))
      by now apply dict_get_app_left.
    specialize (IH (pre ++ [(k, answered ans k)])).
    cbn [keys map fst] in *. fold (keys suf) in *.
    unfold asked_keys, answered in *.
    destruct (PyStr.eqb k (py "apply_lemmatization")) eqn:Ek;
      destruct (ans (py "apply_stemming")) eqn:Es; cbn [andb negb filter] in *;
      rewrite ?Ek in *; cbn [negb map app] in *.
    + apply pystr_eqb_eq in Ek. subst k.
      rewrite lemmatization_forced_off by now apply dict_get_app_left.
      rewrite dict_set_middle by exact Hpre.
      replace (pre ++ (py "apply_lemmatization", false) :: suf)
        with ((pre ++ [(py "apply_lemmatization", false)]) ++ suf)
        by now rewrite <- app_assoc.
      rewrite IH by assumption. now rewrite <- !app_assoc.
    + rewrite configure_keys_ask by (right; now apply dict_get_app_left).
      rewrite dict_set_middle by exact Hpre.
      replace (pre ++ (k, ans k) :: suf) with ((pre ++ [(k, ans k)]) ++ suf)
        by now rewrite <- app_assoc.
      rewrite IH by assumption. now rewrite <- !app_assoc.
    + rewrite configure_keys_ask by (left; exact Ek).
      rewrite dict_set_middle by exact Hpre.
      replace (pre ++ (k, ans k) :: suf) with ((pre ++ [(k, ans k)]) ++ suf)
        by now rewrite <- app_assoc.
      rewrite IH by assumption. now rewrite <- !app_assoc.
    + rewrite configure_keys_ask by (left; exact Ek).
      rewrite dict_set_middle by exact Hpre.
      replace (pre ++ (k, ans k) :: suf) with ((pre ++ [(k, ans k)]) ++ suf)
        by now rewrite <- app_assoc.
      rewrite IH by assumption. now rewrite <- !app_assoc.
Qed.

(** The walk up to [apply_stemming] and beyond. *)
Lemma walk_before_stemming (s1 : dict) :
  forall (pre s2 : dict) (v : bool) (rest : list pystr) (tr : list event),
    NoDup (keys (pre ++ s1 ++ (py "apply_stemming", v) :: s2)) ->
    ~ In (py "apply_lemmatization") (keys s1) ->
    configure_keys unicode_lower (keys (s1 ++ (py "apply_stemming", v) :: s2))
      (pre ++ s1 ++ (py "apply_stemming", v) :: s2)
      {| stdin := map (fun key => answer_line (ans key))
                    (asked_keys ans (keys (s1 ++ (py "apply_stemming", v) :: s2)))
                  ++ rest;
         trace := tr |}
    = (Ok (pre ++ map (fun key => (key, answered ans key))
                    (keys (s1 ++ (py "apply_stemming", v) :: s2))),
       {| stdin := rest;
          trace := tr ++ map prompt_of
                           (asked_keys ans
                              (keys (s1 ++ (py "apply_stemming", v) :: s2))) |}).
Proof.
  induction s1 as [|[k v1] s1 IH]; intros pre s2 v rest tr Hnd Hlem.
  - cbn [app] in *.
    destruct (nodup_keys_middle pre s2 (py "apply_stemming") v
                (ans (py "apply_stemming")) Hnd) as [Hpre Hnd'].
    pose proof (walk_after_stemming s2 (pre ++ [(py "apply_stemming",
                                                 ans (py "apply_stemming"))])) as Hafter.
    cbn [keys map fst] in *. fold (keys s2) in *.
    unfold asked_keys, answered in *.
    destruct (ans (py "apply_stemming")) eqn:Es; cbn [andb negb filter map app] in *;
      change (PyStr.eqb (py "apply_stemming") (py "apply_lemmatization")) with false;
      cbn [andb negb map app];
      rewrite configure_keys_ask by (left; reflexivity);
      rewrite Es, dict_set_middle by exact Hpre.
    + replace (pre ++ (py "apply_stemming", true) :: s2)
        with ((pre ++ [(py "apply_stemming", true)]) ++ s2)
        by now rewrite <- app_assoc.
      rewrite Hafter by (try assumption; now apply dict_get_app_last).
      now rewrite <- !app_assoc.
    + replace (pre ++ (py "apply_stemming", false) :: s2)
        with ((pre ++ [(py "apply_stemming", false)]) ++ s2)
        by now rewrite <- app_assoc.
      rewrite Hafter by (try assumption; now apply dict_get_app_last).
      now rewrite <- !app_assoc.
  - cbn [app] in *.
    destruct (nodup_keys_middle pre (s1 ++ (py "apply_stemming", v) :: s2) k v1
                (ans k) Hnd) as [Hpre Hnd'].
    assert (Ek : PyStr.eqb k (py "apply_lemmatization") = false).
    { apply pystr_eqb_neq. intros ->. apply Hlem. now left. }
    assert (Hlem' : ~ In (py "apply_lemmatization") (keys s1))
      by (intros H; apply Hlem; now right).
    specialize (fun rest tr => IH (pre ++ [(k, ans k)]) s2 v rest tr Hnd' Hlem').
    cbn [keys map fst] in *. fold (keys (s1 ++ (py "apply_stemming", v) :: s2)) in *.
    unfold asked_keys, answered in *.
    destruct (ans (py "apply_stemming")) eqn:Es; cbn [andb negb filter] in *;
      rewrite ?Ek in *; cbn [andb negb map app] in *.
    + rewrite configure_keys_ask by (left; exact Ek).
      rewrite dict_set_middle by exact Hpre.
      replace (pre ++ (k, ans k) :: s1 ++ (py "apply_stemming", v) :: s2)
        with ((pre ++ [(k, ans k)]) ++ s1 ++ (py "apply_stemming", v) :: s2)
        by now rewrite <- app_assoc.
      rewrite IH. now rewrite <- !app_assoc.
    + rewrite configure_keys_ask by (left; exact Ek).
      rewrite dict_set_middle by exact Hpre.
      replace (pre ++ (k, ans k) :: s1 ++ (py "apply_stemming", v) :: s2)
        with ((pre ++ [(k, ans k)]) ++ s1 ++ (py "apply_stemming", v) :: s2)
        by now rewrite <- app_assoc.
      rewrite IH. now rewrite <- !app_assoc.
Qed.

(** X4.  On a dictionary with distinct keys in which no
    [apply_lemmatization] comes before [apply_stemming], and an input of
    "y" and "n" lines, [configure_from_flags] asks about the keys in order
    and gives each key the answer to its question, with one exception:
    when the answer about stemming is yes, the lemmatization question is
    left out and [apply_lemmatization] ends false.  The values the
    dictionary had at the start play no part. *)
Theorem configure_from_flags_stemming_first (s1 s2 : dict) (v : bool)
  (rest : list pystr) (tr : list event) :
  let flag_dict := s1 ++ (py "apply_stemming", v) :: s2 in
  NoDup (keys flag_dict) ->
  ~ In (py "apply_lemmatization") (keys s1) ->
  configure_from_flags unicode_lower flag_dict
    {| stdin := map (fun key => answer_line (ans key)) (asked_keys ans (keys flag_dict))
                ++ rest;
       trace := tr |}
  = (Ok (map (fun key => (key, answered ans key)) (keys flag_dict)),
     {| stdin := rest; trace := tr ++ map prompt_of (asked_keys ans (keys flag_dict)) |}).
Proof.
  cbv zeta. intros Hnd Hlem. unfold configure_from_flags.
  exact (walk_before_stemming s1 [] s2 v rest tr Hnd Hlem).
Qed.

End AnswersInOrder.

Lemma ask_for_pipeline_skips (bad : list pystr) :
  forall (rest : list pystr) (tr : list event),
    Forall (fun a => valid_choice a = false) bad ->
    ask_for_pipeline_from (bad ++ rest) tr
    = ask_for_pipeline_from rest (tr ++ flat_map (fun _ => retry_pipeline) bad).
Proof.
  induction bad as [|a bad IH]; intros rest tr Hbad.
  - simpl. now rewrite app_nil_r.
  - inversion Hbad as [|? ? Ha Hbad']; subst.
    unfold valid_choice in Ha.
    apply orb_false_iff in Ha as [Ha H3]. apply orb_false_iff in Ha as [H1 H2].
    cbn [app ask_for_pipeline_from flat_map]. rewrite H1, H2, H3.
    rewrite IH by assumption. unfold retry_pipeline.
    now rewrite <- !app_assoc.
Qed.

(** X5.  [ask_for_pipeline] passes over every line that is not "1", "2" or
    "3", printing the menu and the complaint once per such line, and
    decides on the first line that is one of the three: it returns the
    default, the custom or the demo pipeline and leaves the lines after it
    unread.  When the input has no such line it raises [EOFError] after
    the menu has been shown once more than there are lines. *)
Theorem ask_for_pipeline_first_valid (bad rest : list pystr) (tr : list event) :
  Forall (fun a => valid_choice a = false) bad ->
  let retries := flat_map (fun _ => retry_pipeline) bad in
  ask_for_pipeline_from (bad ++ py "1" :: rest) tr
  = (Ok DEFAULT_DYNAMIC,
     {| stdin := rest;
        trace := tr ++ retries ++ pipeline_menu
                 ++ [EvPrint (py "Using default parameters for ETL...")] |})
  /\ ask_for_pipeline_from (bad ++ py "2" :: rest) tr
     = (Ok CUSTOM_DYNAMIC, {| stdin := rest; trace := tr ++ retries ++ pipeline_menu |})
  /\ ask_for_pipeline_from (bad ++ py "3" :: rest) tr
     = (Ok DEMO, {| stdin := rest; trace := tr ++ retries ++ pipeline_menu |})
  /\ ask_for_pipeline_from (bad ++ rest) tr = ask_for_pipeline_from rest (tr ++ retries)
  /\ ask_for_pipeline_from bad tr
     = (Raise EOFError, {| stdin := []; trace := tr ++ retries ++ pipeline_menu |})
  /\ count is_input_event (retries ++ pipeline_menu) = S (List.length bad).
Proof.
  intros Hbad. cbv zeta.
  rewrite !ask_for_pipeline_skips by assumption.
  repeat apply conj.
  - cbn [ask_for_pipeline_from]. change (PyStr.eqb (py "1") (py "1")) with true.
    cbv iota. now rewrite <- !app_assoc.
  - cbn [ask_for_pipeline_from]. change (PyStr.eqb (py "2") (py "1")) with false.
    change (PyStr.eqb (py "2") (py "2")) with true. cbv iota.
    now rewrite <- !app_assoc.
  - cbn [ask_for_pipeline_from]. change (PyStr.eqb (py "3") (py "1")) with false.
    change (PyStr.eqb (py "3") (py "2")) with false.
    change (PyStr.eqb (py "3") (py "3")) with true. cbv iota.
    now rewrite <- !app_assoc.
  - reflexivity.
  - pose proof (ask_for_pipeline_skips [] tr Hbad) as H.
    rewrite app_nil_r in H. rewrite H. cbn [ask_for_pipeline_from].
    now rewrite <- app_assoc.
  - clear Hbad. induction bad as [|a bad IH]; [reflexivity|].
    cbn [flat_map]. rewrite <- app_assoc, count_app, IH. reflexivity.
Qed.

Lemma configure_flag_skips (question : pystr) (bad : list pystr) :
  forall (rest : list pystr) (tr : list event),
    Forall (fun a => valid_answer unicode_lower a = false) bad ->
    configure_flag_from unicode_lower question (bad ++ rest) tr
    = configure_flag_from unicode_lower question rest
        (tr ++ flat_map (fun _ => retry_flag question) bad).
Proof.
  induction bad as [|a bad IH]; intros rest tr Hbad.
  - simpl. now rewrite app_nil_r.
  - inversion Hbad as [|? ? Ha Hbad']; subst.
    unfold valid_answer in Ha. apply orb_false_iff in Ha as [Hy Hn].
    cbn [app configure_flag_from flat_map]. rewrite Hy, Hn.
    rewrite IH by assumption. unfold retry_flag.
    now rewrite <- !app_assoc.
Qed.

(** X6.  [configure_flag] passes over every line whose lowercase form is
    neither "y" nor "n", repeating the prompt and the complaint once per
    such line; it returns true or false on the first line that is one of
    them, leaving the lines after it unread, and raises [EOFError] when
    the input has no such line. *)
Theorem configure_flag_first_valid (question : pystr) (bad : list pystr) (b : bool)
  (rest : list pystr) (tr : list event) :
  Forall (fun a => valid_answer unicode_lower a = false) bad ->
  configure_flag_from unicode_lower question (bad ++ answer_line b :: rest) tr
  = (Ok b,
     {| stdin := rest;
        trace := tr ++ flat_map (fun _ => retry_flag question) bad
                 ++ [EvInput (question ++ py " (y/n) ")] |})
  /\ configure_flag_from unicode_lower question bad tr
     = (Raise EOFError,
        {| stdin := [];
           trace := tr ++ flat_map (fun _ => retry_flag question) bad
                    ++ [EvInput (question ++ py " (y/n) ")] |}).
Proof.
  intros Hbad. split.
  - rewrite configure_flag_skips by assumption.
    pose proof (configure_flag_answer unicode_lower question b rest
                  (tr ++ flat_map (fun _ => retry_flag question) bad)) as H.
    unfold configure_flag in H. cbn [stdin trace] in H. rewrite H.
    now rewrite <- app_assoc.
  - pose proof (configure_flag_skips question [] tr Hbad) as H.
    rewrite app_nil_r in H. rewrite H. cbn [configure_flag_from].
    now rewrite <- app_assoc.
Qed.

(** X7.  [configure_pipeline_and_flags] hands the default flags back
    untouched unless the custom pipeline is chosen: without the system it
    returns the default pipeline and the default flags and reads and prints
    nothing; with it, a result for the default or the demo pipeline carries
    the default flags, and no result is for the custom pipeline unless the
    system is used. *)
Theorem configure_pipeline_keeps_defaults (default_flags : FlagContainer)
  (use_system : bool) (w : World) :
  configure_pipeline_and_flags unicode_lower text_flag_order default_flags false w
  = (Ok (DEFAULT_DYNAMIC, default_flags), w)
  /\ match fst (configure_pipeline_and_flags unicode_lower text_flag_order default_flags use_system w) with
     | Ok (CUSTOM_DYNAMIC, _) => use_system = true
     | Ok (_, flags) => flags = default_flags
     | Raise _ => use_system = true
     end.
Proof.
  split; [reflexivity|].
  unfold configure_pipeline_and_flags.
  destruct use_system; [|reflexivity]. cbn [negb].
  unfold bind at 1.
  destruct (ask_for_pipeline w) as [[[| |]|e] w1]; try reflexivity.
  unfold bind.
  destruct (configure_dynamic_etl unicode_lower text_flag_order default_flags w1) as [[f|e] w2];
    reflexivity.
Qed.

End PromptLoops.

(* ================================================================== *)
(** * Stemming before lemmatization *)
(* ================================================================== *)

(** The question of a flag other than [apply_lemmatization] is not the
    lemmatization question. *)
Lemma other_question (key : pystr) (e : event) :
  In key flag_identifiers ->
  key <> py "apply_lemmatization" ->
  question_event (specific_question key) e ->
  e <> prompt_of (py "apply_lemmatization").
Proof.
  intros Hin Hne Hq Heq. subst e.
  destruct Hq as [Hq | Hq]; [|discriminate Hq].
  apply (f_equal (fun e => match e with EvInput p => p | _ => [] end)) in Hq.
  unfold flag_identifiers in Hin. simpl In in Hin.
  repeat destruct Hin as [<- | Hin]; try contradiction;
    try (vm_compute in Hq; discriminate Hq).
Qed.

Lemma not_in_before (A : Type) (k1 k2 k3 : list A) (a b : A) :
  NoDup (k1 ++ a :: k2 ++ b :: k3) -> ~ In b k1.
Proof.
  intros Hnd Hin.
  replace (k1 ++ a :: k2 ++ b :: k3) with ((k1 ++ a :: k2) ++ b :: k3) in Hnd
    by (now rewrite <- app_assoc).
  apply NoDup_remove_2 in Hnd. apply Hnd.
  apply in_or_app. left. apply in_or_app. now left.
Qed.

Section StemmingGuard.

Variable unicode_lower : pystr -> nat -> pystr.

(** The walk after a yes to stemming: stemming stays true, lemmatization
    ends false and its question is not put. *)
Lemma walk_with_stemming (ks : list pystr) :
  forall (flag_dict : dict) (w : World),
    NoDup ks ->
    ~ In (py "apply_stemming") ks ->
    Forall (fun key => In key flag_identifiers) ks ->
    dict_get flag_dict (py "apply_stemming") = Some true ->
    In (py "apply_lemmatization") ks
    \/ dict_get flag_dict (py "apply_lemmatization") = Some false ->
    match configure_keys unicode_lower ks flag_dict w with
    | (Ok d', w') =>
        dict_get d' (py "apply_stemming") = Some true
        /\ dict_get d' (py "apply_lemmatization") = Some false
        /\ exists es,
            trace w' = trace w ++ es /\ ~ In (prompt_of (py "apply_lemmatization")) es
    | (Raise _, _) => True
    end.
Proof.
  induction ks as [|key rest IH]; intros flag_dict w Hnd Hnostem Hids Hstem Hlem.
  - simpl. destruct Hlem as [[] | Hlem]. repeat split; auto.
    exists []. rewrite app_nil_r. auto.
  - inversion Hnd as [|? ? Hnotin Hnd']; subst.
    inversion Hids as [|? ? Hid Hids']; subst.
    assert (Hkey_stem : key <> py "apply_stemming")
      by (intros ->; apply Hnostem; now left).
    assert (Hrest_stem : ~ In (py "apply_stemming") rest)
      by (intros H; apply Hnostem; now right).
    cbn [configure_keys].
    destruct (PyStr.eqb key (py "apply_lemmatization")) eqn:Ekey.
    + apply pystr_eqb_eq in Ekey. subst key. rewrite Hstem.
      apply IH; auto.
      * rewrite dict_get_set_other; auto.
      * right. apply dict_get_set_same.
    + apply pystr_eqb_neq in Ekey.
      unfold bind, configure_flag.
      destruct (configure_flag_from_events unicode_lower (specific_question key)
                  (stdin w) (trace w)) as (es1 & Hes1 & Hall1).
      destruct (configure_flag_from unicode_lower (specific_question key)
                  (stdin w) (trace w)) as [[answer|e] w1]; [|exact I].
      cbn [snd] in Hes1.
      specialize (IH (dict_set flag_dict key answer) w1 Hnd' Hrest_stem Hids').
      rewrite dict_get_set_other in IH by assumption.
      specialize (IH Hstem).
      assert (Hlem' : In (py "apply_lemmatization") rest
                      \/ dict_get (dict_set flag_dict key answer)
                           (py "apply_lemmatization") = Some false).
      { destruct Hlem as [[Heq | Hin] | Hget].
        - now elim Ekey.
        - now left.
        - right. now rewrite dict_get_set_other. }
      specialize (IH Hlem').
      destruct (configure_keys unicode_lower rest (dict_set flag_dict key answer) w1)
        as [[d'|e] w2]; [|exact I].
      destruct IH as (Hs & Hl & es2 & Hes2 & Hnot).
      split; [exact Hs|]. split; [exact Hl|].
      exists (es1 ++ es2). split.
      * rewrite Hes2, Hes1, app_assoc. reflexivity.
      * intros Hin. apply in_app_or in Hin as [Hin | Hin]; [|now apply Hnot].
        rewrite Forall_forall in Hall1.
        exact (other_question Hid Ekey (Hall1 _ Hin) eq_refl).
Qed.

(** The walk over keys among which stemming comes before lemmatization. *)
Lemma walk_stemming_first (k1 : list pystr) :
  forall (tail : list pystr) (flag_dict : dict) (w : World),
    NoDup (k1 ++ py "apply_stemming" :: tail) ->
    ~ In (py "apply_lemmatization") k1 ->
    In (py "apply_lemmatization") tail ->
    Forall (fun key => In key flag_identifiers) (k1 ++ py "apply_stemming" :: tail) ->
    (forall key, In key (k1 ++ py "apply_stemming" :: tail) -> In key (keys flag_dict)) ->
    match configure_keys unicode_lower (k1 ++ py "apply_stemming" :: tail) flag_dict w with
    | (Ok d', w') =>
        dict_get d' (py "apply_stemming") = Some true ->
        dict_get d' (py "apply_lemmatization") = Some false
        /\ exists es,
            trace w' = trace w ++ es /\ ~ In (prompt_of (py "apply_lemmatization")) es
    | (Raise _, _) => True
    end.
Proof.
  induction k1 as [|key k1 IH]; intros tail flag_dict w Hnd Hlem Htail Hids Hkeys.
  - cbn [app] in *.
    inversion Hnd as [|? ? Hnotin Hnd']; subst.
    inversion Hids as [|? ? Hid Hids']; subst.
    cbn [configure_keys].
    change (PyStr.eqb (py "apply_stemming") (py "apply_lemmatization")) with false.
    cbv iota. unfold bind, configure_flag.
    destruct (configure_flag_from_events unicode_lower
                (specific_question (py "apply_stemming")) (stdin w) (trace w))
      as (es1 & Hes1 & Hall1).
    destruct (configure_flag_from unicode_lower
                (specific_question (py "apply_stemming")) (stdin w) (trace w))
      as [[answer|e] w1]; [|exact I].
    cbn [snd] in Hes1.
    destruct answer.
    + pose proof (walk_with_stemming
                    (dict_set flag_dict (py "apply_stemming") true) w1
                    Hnd' Hnotin Hids' (dict_get_set_same _ _ _) (or_introl Htail))
        as Hwalk.
      destruct (configure_keys unicode_lower tail
                  (dict_set flag_dict (py "apply_stemming") true) w1)
        as [[d'|e] w2]; [|exact I].
      destruct Hwalk as (_ & Hl & es2 & Hes2 & Hnot).
      intros _. split; [exact Hl|].
      exists (es1 ++ es2). split.
      * rewrite Hes2, Hes1, app_assoc. reflexivity.
      * intros Hin. apply in_app_or in Hin as [Hin | Hin]; [|now apply Hnot].
        rewrite Forall_forall in Hall1.
        refine (other_question Hid _ (Hall1 _ Hin) eq_refl). discriminate.
    + pose proof (configure_keys_frame unicode_lower tail
                    (dict_set flag_dict (py "apply_stemming") false) w1) as Hframe.
      rewrite keys_dict_set in Hframe by (apply Hkeys; now left).
      specialize (Hframe (fun key H => Hkeys key (or_intror H))).
      destruct (configure_keys unicode_lower tail
                  (dict_set flag_dict (py "apply_stemming") false) w1)
        as [[d'|e] w2]; [|exact I].
      destruct Hframe as [_ Hframe]. intros Htrue.
      assert (Hf : dict_get d' (py "apply_stemming") = Some false).
      { rewrite (Hframe (py "apply_stemming") Hnotin). apply dict_get_set_same. }
      congruence.
  - cbn [app] in *.
    inversion Hnd as [|? ? Hnotin Hnd']; subst.
    inversion Hids as [|? ? Hid Hids']; subst.
    assert (Ekey : key <> py "apply_lemmatization")
      by (intros ->; apply Hlem; now left).
    cbn [configure_keys].
    apply pystr_eqb_neq in Ekey. rewrite Ekey. apply pystr_eqb_neq in Ekey.
    unfold bind, configure_flag.
    destruct (configure_flag_from_events unicode_lower (specific_question key)
                (stdin w) (trace w)) as (es1 & Hes1 & Hall1).
    destruct (configure_flag_from unicode_lower (specific_question key)
                (stdin w) (trace w)) as [[answer|e] w1]; [|exact I].
    cbn [snd] in Hes1.
    specialize (IH tail (dict_set flag_dict key answer) w1 Hnd'
                  (fun H => Hlem (or_intror H)) Htail Hids').
    rewrite keys_dict_set in IH by (apply Hkeys; now left).
    specialize (IH (fun k H => Hkeys k (or_intror H))).
    destruct (configure_keys unicode_lower (k1 ++ py "apply_stemming" :: tail)
                (dict_set flag_dict key answer) w1) as [[d'|e] w2]; [|exact I].
    intros Htrue. destruct (IH Htrue) as (Hl & es2 & Hes2 & Hnot).
    split; [exact Hl|].
    exists (es1 ++ es2). split.
    + rewrite Hes2, Hes1, app_assoc. reflexivity.
    + intros Hin. apply in_app_or in Hin as [Hin | Hin]; [|now apply Hnot].
      rewrite Forall_forall in Hall1.
      exact (other_question Hid Ekey (Hall1 _ Hin) eq_refl).
Qed.

Variable text_flag_order : list pystr.

(** C1.  Stemming excludes lemmatization in every configuration.  The
    text flags built from a dictionary never have both: when stemming is
    requested, lemmatization is false; so it is in whatever the custom
    walk returns.  In the walk itself, a true [apply_stemming] in the
    dictionary when [apply_lemmatization] is reached sets the flag to false
    without a question; and for a dictionary of flags with distinct keys
    in which [apply_stemming] comes before [apply_lemmatization], whatever
    the values at the start and whatever the input, a walk that returns
    with [apply_stemming] true returns [apply_lemmatization] false and has
    not put the lemmatization question. *)
Theorem stemming_excludes_lemmatization (flag_dict : dict) (flags : FlagContainer)
  (w : World) :
  (forall d : dict,
      apply_stemming (TextFlags_kwargs d) = true ->
      apply_lemmatization (TextFlags_kwargs d) = false)
  /\ match fst (configure_dynamic_etl unicode_lower text_flag_order flags w) with
     | Ok r =>
         apply_stemming (text_flags r) = true -> apply_lemmatization (text_flags r) = false
     | Raise _ => True
     end
  /\ (forall ks : list pystr,
        dict_get flag_dict (py "apply_stemming") = Some true ->
        configure_keys unicode_lower (py "apply_lemmatization" :: ks) flag_dict w
        = configure_keys unicode_lower ks
            (dict_set flag_dict (py "apply_lemmatization") false) w)
  /\ (NoDup (keys flag_dict) ->
      Forall (fun key => In key flag_identifiers) (keys flag_dict) ->
      (exists k1 k2 k3,
          keys flag_dict = k1 ++ py "apply_stemming" :: k2
                           ++ py "apply_lemmatization" :: k3) ->
      match configure_from_flags unicode_lower flag_dict w with
      | (Ok d', w') =>
          dict_get d' (py "apply_stemming") = Some true ->
          dict_get d' (py "apply_lemmatization") = Some false
          /\ ~ In (prompt_of (py "apply_lemmatization")) (new_events w w')
      | (Raise _, _) => True
      end).
Proof.
  assert (Hctor : forall d : dict,
             apply_stemming (TextFlags_kwargs d) = true ->
             apply_lemmatization (TextFlags_kwargs d) = false).
  { intros d. unfold TextFlags_kwargs. cbn [apply_stemming apply_lemmatization].
    intros ->. apply andb_false_r. }
  split; [exact Hctor|]. split; [|split].
  - unfold configure_dynamic_etl, bind, print, emit.
    destruct (configure_from_flags unicode_lower _ _) as [[d1|e1] w1]; [|exact I].
    destruct (configure_from_flags unicode_lower _ _) as [[d2|e2] w2]; [|exact I].
    cbn [fst ret text_flags]. apply Hctor.
  - intros ks Hstem. now apply lemmatization_forced_off.
  - intros Hnd Hids (k1 & k2 & k3 & Hkeys).
    unfold configure_from_flags.
    assert (Hsub : forall key,
               In key (k1 ++ py "apply_stemming" :: k2
                       ++ py "apply_lemmatization" :: k3) ->
               In key (keys flag_dict))
      by (intros key H; now rewrite Hkeys).
    rewrite Hkeys in Hnd, Hids |- *.
    pose proof (@not_in_before _ k1 k2 k3 _ _ Hnd) as Hlem.
    assert (Htail : In (py "apply_lemmatization")
                      (k2 ++ py "apply_lemmatization" :: k3))
      by (apply in_or_app; right; now left).
    pose proof (@walk_stemming_first k1 (k2 ++ py "apply_lemmatization" :: k3)
                  flag_dict w Hnd Hlem Htail Hids Hsub) as Hwalk.
    destruct (configure_keys unicode_lower
                (k1 ++ py "apply_stemming" :: k2 ++ py "apply_lemmatization" :: k3)
                flag_dict w) as [[d'|e] w']; [|exact I].
    intros Htrue. destruct (Hwalk Htrue) as (Hl & es & Hes & Hnot).
    split; [exact Hl|]. now rewrite (@new_events_trace w w' es Hes).
Qed.

End StemmingGuard.

(* ================================================================== *)
(** * Further properties of the pipeline *)
(* ================================================================== *)

(** ** Trimming and tokens *)

Lemma split_from_lstrip (s : pystr) : split_from [] (lstrip s) = split_from [] s.
Proof.
  induction s as [|c r IH]; [reflexivity|].
  simpl. destruct (isspace c) eqn:E; [exact IH|].
  simpl. now rewrite E.
Qed.

Lemma split_from_spaces (ws : pystr) :
  Forall (fun c => isspace c = true) ws ->
  forall cur, split_from cur ws = split_from cur [].
Proof.
  induction 1 as [|c ws Hc _ IH]; intros cur; [reflexivity|].
  simpl. rewrite Hc. destruct cur; rewrite IH; reflexivity.
Qed.

Lemma split_from_trailing (ws : pystr) :
  Forall (fun c => isspace c = true) ws ->
  forall s cur, split_from cur (s ++ ws) = split_from cur s.
Proof.
  intros Hws. induction s as [|c r IH]; intros cur.
  - simpl app. now apply split_from_spaces.
  - simpl. destruct (isspace c); [destruct cur|]; now rewrite IH.
Qed.

Lemma lstrip_decompose (s : pystr) :
  exists ws, s = ws ++ lstrip s /\ Forall (fun c => isspace c = true) ws.
Proof.
  induction s as [|c r (ws & Heq & Hws)].
  - exists []. auto.
  - simpl. destruct (isspace c) eqn:E.
    + exists (c :: ws). split; [simpl; congruence | now constructor].
    + exists []. auto.
Qed.

Lemma rstrip_decompose (s : pystr) :
  exists ws, s = rstrip s ++ ws /\ Forall (fun c => isspace c = true) ws.
Proof.
  destruct (lstrip_decompose (rev s)) as (ws & Heq & Hws).
  exists (rev ws). split.
  - unfold rstrip. rewrite <- rev_app_distr, <- Heq. now rewrite rev_involutive.
  - apply Forall_rev. exact Hws.
Qed.

Lemma split_strip (s : pystr) : split (strip s) = split s.
Proof.
  unfold split, strip.
  destruct (rstrip_decompose (lstrip s)) as (ws & Heq & Hws).
  rewrite <- (split_from_lstrip s). rewrite Heq at 2.
  now rewrite split_from_trailing.
Qed.

Lemma rstrip_trailing_space (s : pystr) (c : char) :
  isspace c = true -> rstrip (s ++ [c]) = rstrip s.
Proof.
  intros Hc. unfold rstrip. rewrite rev_app_distr. simpl. now rewrite Hc.
Qed.

(** X8.  The question of any key, flag or not: "Do you want to ", the key
    with every underscore replaced by a space and the whitespace at its end
    removed, "?".  So underscores at the end of a key leave no trace: such a
    key has the question of the key without them. *)
Theorem question_of_any_key (key : pystr) :
  specific_question key
  = py "Do you want to " ++ rstrip (underscores_to_spaces key) ++ py "?"
  /\ specific_question (key ++ py "_") = specific_question key.
Proof.
  split.
  - apply specific_question_eq.
  - rewrite !specific_question_eq. unfold underscores_to_spaces.
    rewrite map_app. simpl map.
    now rewrite rstrip_trailing_space by reflexivity.
Qed.

Section StageProperties.

Context {PM : ParagraphModifier.t} {TM : TextModifier.t}.
Variable read_json : pystr -> option (list pystr).

Local Notation "'stage'" := (__transform_paragraphs_from_doc read_json).

(** X9.  Trimming does not change the tokens of a text, so with the four
    switches off every record the stage returns has a text of at least
    three tokens, the tokens of its paragraph. *)
Theorem transform_all_off_tokens (ps : list Paragraph) (w : World) :
  (forall s : pystr, split (strip s) = split s)
  /\ exists out,
      fst (stage ps
             {| remove_stop_words := false; apply_lemmatization := false;
                apply_stemming := false; remove_punctuation := false |} w)
      = Ok out
      /\ map (fun o => split (obj_text o)) out
         = map (fun p => split (text p)) (filter nondegenerate ps)
      /\ Forall (fun o => 3 <= List.length (split (obj_text o))) out.
Proof.
  split; [exact split_strip|].
  rewrite transform_stage_run. unfold prestep. cbn [remove_stop_words fst].
  eexists. split; [reflexivity|].
  unfold stage_output.
  induction ps as [|p ps [IH1 IH2]]; [split; [reflexivity | constructor]|].
  cbn [filter]. destruct (nondegenerate p) eqn:Hp; [|split; assumption].
  cbn [map]. split.
  - f_equal; [|exact IH1]. cbn. apply split_strip.
  - constructor; [|exact IH2]. cbn. rewrite split_strip.
    unfold nondegenerate in Hp. now apply Nat.leb_le in Hp.
Qed.

(** X10.  The stage treats the paragraphs one by one: the records of a
    concatenation are the records of the first part followed by the
    records of the second, and the call on the concatenation fails exactly
    when the calls on the parts fail. *)
Theorem transform_stage_app (tf : TextFlags) (ps1 ps2 : list Paragraph) (w : World) :
  fst (stage (ps1 ++ ps2) tf w)
  = match fst (stage ps1 tf w), fst (stage ps2 tf w) with
    | Ok out1, Ok out2 => Ok (out1 ++ out2)
    | Raise e, _ => Raise e
    | _, Raise e => Raise e
    end.
Proof.
  rewrite !transform_stage_run.
  destruct (prestep read_json tf) as [[sw|] es]; cbn [fst]; [|reflexivity].
  unfold stage_output. now rewrite filter_app, map_app.
Qed.

(** X11.  With the four switches on and the stop-word list loaded, the
    transforms are called on a paragraph in the order stop words,
    lemmatization, stemming, punctuation, the first on the trimmed text and
    each of the others on the text the one before it returned; the record
    keeps the text returned by the last. *)
Theorem transform_order (p : Paragraph) (sw : list pystr) (w : World) :
  nondegenerate p = true ->
  read_json (py "stopwords.json") = Some sw ->
  let t0 := strip (text p) in
  let t1 := TextModifier.remove_stop_words t0 sw in
  let t2 := TextModifier.apply_lemmatization t1 in
  let t3 := TextModifier.apply_stemming t2 in
  let t4 := TextModifier.remove_punctuation t3 in
  stage [p]
    {| remove_stop_words := true; apply_lemmatization := true;
       apply_stemming := true; remove_punctuation := true |} w
  = (Ok [ {| obj_text := t4; obj_style := name (style p) |} ],
     log w [ EvOpenRead (py "stopwords.json");
             EvPrint (py "removing stop words"); EvTextCall RemoveStopWords t0;
             EvPrint (py "applying lemmatization"); EvTextCall ApplyLemmatization t1;
             EvPrint (py "applying stemming"); EvTextCall ApplyStemming t2;
             EvPrint (py "removing punctuation"); EvTextCall RemovePunctuation t3 ]).
Proof.
  intros Hp Hsw. cbv zeta.
  rewrite transform_stage_run. unfold prestep. cbn [remove_stop_words].
  fold stopwords_json in Hsw. rewrite Hsw.
  unfold stage_output, stage_events. cbn [filter]. rewrite Hp.
  reflexivity.
Qed.

(** X12.  The second component returned by the filter stage is the
    paragraphs the enabled rules removed, rule after rule in the order of
    the stage, each rule having been given what the rules before it
    kept. *)
Theorem filter_stage_removed (ps : list Paragraph) (pf : ParagraphFlags) (w : World) :
  let k1 := rule_kept (remove_title_page pf) RemoveTitle ps in
  let k2 := rule_kept (remove_bibliography pf) RemoveBibliography k1 in
  let k3 := rule_kept (remove_headings pf) RemoveHeadings k2 in
  exists kept,
    fst (__remove_paragraphs_from_doc ps pf w)
    = Ok (kept,
          (if remove_title_page pf then snd (paragraph_modifier RemoveTitle ps) else [])
          ++ (if remove_bibliography pf
              then snd (paragraph_modifier RemoveBibliography k1) else [])
          ++ (if remove_headings pf
              then snd (paragraph_modifier RemoveHeadings k2) else [])
          ++ (if remove_tables_and_figures pf
              then snd (paragraph_modifier RemoveTablesFigures k3) else [])).
Proof.
  cbv zeta. rewrite remove_paragraphs_run. cbn [fst].
  eexists. reflexivity.
Qed.

(** X13.  What [_transform] returns: the configuration it was given and one
    entry per document, in the order of the batch, under the file name of
    the document.  It raises only when the stop-word list is requested,
    cannot be loaded and the batch is not empty; an empty batch gives the
    empty list of documents without any event. *)
Theorem transform_result_shape (data : list (Document * pystr)) (flags : FlagContainer)
  (w : World) :
  match fst (_transform read_json data flags w) with
  | Ok total =>
      config total = flags /\ map filename (documents total) = map snd data
  | Raise e =>
      e = ResourceError (py "stopwords.json")
      /\ remove_stop_words (text_flags flags) = true
      /\ read_json (py "stopwords.json") = None
      /\ data <> []
  end
  /\ _transform read_json [] flags w = (Ok {| config := flags; documents := [] |}, w).
Proof.
  split.
  - rewrite transform_run. unfold prestep.
    destruct (remove_stop_words (text_flags flags)) eqn:Hflag.
    + fold stopwords_json.
      destruct (read_json stopwords_json) as [sw|] eqn:Hres; cbn [fst].
      * split; [reflexivity|]. cbn [documents]. rewrite map_map. reflexivity.
      * destruct data as [|d data]; cbn [fst].
        -- split; reflexivity.
        -- repeat split; auto. discriminate.
    + cbn [fst]. split; [reflexivity|]. cbn [documents]. rewrite map_map. reflexivity.
  - rewrite transform_run.
    destruct (prestep read_json (text_flags flags)) as [[sw|] es]; cbn [map flat_map];
      now rewrite ?log_nil.
Qed.

(** X14.  How often [_transform] opens the stop-word resource: never when
    stop words are not removed; once per document of the batch when the
    list can be loaded; once, at the first document, when it cannot. *)
Theorem transform_stopword_loads (data : list (Document * pystr)) (flags : FlagContainer)
  (w : World) :
  count is_open_read (new_events w (snd (_transform read_json data flags w)))
  = if remove_stop_words (text_flags flags)
    then match read_json (py "stopwords.json") with
         | Some _ => List.length data
         | None => Nat.min 1 (List.length data)
         end
    else 0.
Proof.
  rewrite transform_run. unfold prestep. fold stopwords_json.
  assert (Hdoc : forall sw es d,
             count is_open_read (document_events flags sw es d) = count is_open_read es).
  { intros sw es d. unfold document_events.
    rewrite !count_app, filter_events_count, stage_events_count by reflexivity. lia. }
  destruct (remove_stop_words (text_flags flags)).
  - destruct (read_json stopwords_json) as [sw|]; cbn [snd].
    + rewrite new_events_log.
      induction data as [|d data IH]; [reflexivity|].
      cbn [flat_map]. rewrite count_app, IH, Hdoc. reflexivity.
    + destruct data as [|d data]; cbn [snd].
      * unfold new_events. now rewrite skipn_all.
      * rewrite new_events_log, count_app, filter_events_count by reflexivity.
        reflexivity.
  - cbn [snd]. rewrite new_events_log.
    induction data as [|d data IH]; [reflexivity|].
    cbn [flat_map]. now rewrite count_app, IH, Hdoc.
Qed.

End StageProperties.

Section RemovedParagraphs.

Context {TM : TextModifier.t}.
Variable read_json : pystr -> option (list pystr).

Lemma kept_agree (PM1 PM2 : ParagraphModifier.t) :
  (forall rule ps,
      fst (paragraph_modifier (PM := PM1) rule ps)
      = fst (paragraph_modifier (PM := PM2) rule ps)) ->
  forall pf ps,
    kept1 (PM := PM1) pf ps = kept1 (PM := PM2) pf ps
    /\ kept2 (PM := PM1) pf ps = kept2 (PM := PM2) pf ps
    /\ kept3 (PM := PM1) pf ps = kept3 (PM := PM2) pf ps
    /\ kept4 (PM := PM1) pf ps = kept4 (PM := PM2) pf ps.
Proof.
  intros H pf ps.
  assert (H1 : kept1 (PM := PM1) pf ps = kept1 (PM := PM2) pf ps).
  { unfold kept1, rule_kept. destruct (remove_title_page pf); auto. }
  assert (H2 : kept2 (PM := PM1) pf ps = kept2 (PM := PM2) pf ps).
  { unfold kept2, rule_kept. rewrite H1. destruct (remove_bibliography pf); auto. }
  assert (H3 : kept3 (PM := PM1) pf ps = kept3 (PM := PM2) pf ps).
  { unfold kept3, rule_kept. rewrite H2. destruct (remove_headings pf); auto. }
  assert (H4 : kept4 (PM := PM1) pf ps = kept4 (PM := PM2) pf ps).
  { unfold kept4, rule_kept. rewrite H3. destruct (remove_tables_and_figures pf); auto. }
  auto.
Qed.

(** X15.  The paragraphs the rules report as removed play no part in
    [_transform]: with two sets of rules that keep the same paragraphs, and
    report whatever they like as removed, it returns the same result and
    does the same things. *)
Theorem transform_ignores_removed (PM1 PM2 : ParagraphModifier.t)
  (data : list (Document * pystr)) (flags : FlagContainer) (w : World) :
  (forall rule ps,
      fst (paragraph_modifier (PM := PM1) rule ps)
      = fst (paragraph_modifier (PM := PM2) rule ps)) ->
  _transform (PM := PM1) read_json data flags w
  = _transform (PM := PM2) read_json data flags w.
Proof.
  intros H. rewrite !transform_run.
  assert (Hev : forall pf ps,
             filter_events (PM := PM1) pf ps = filter_events (PM := PM2) pf ps).
  { intros pf ps. destruct (kept_agree PM1 PM2 H pf ps) as (H1 & H2 & H3 & _).
    unfold filter_events. now rewrite H1, H2, H3. }
  assert (Hk : forall pf ps, kept4 (PM := PM1) pf ps = kept4 (PM := PM2) pf ps).
  { intros pf ps. now destruct (kept_agree PM1 PM2 H pf ps) as (_ & _ & _ & H4). }
  destruct (prestep read_json (text_flags flags)) as [[sw|] es].
  - f_equal.
    + f_equal. f_equal. apply map_ext. intros d. unfold document_obj. now rewrite Hk.
    + f_equal. apply flat_map_ext. intros d. unfold document_events.
      now rewrite Hev, Hk.
  - destruct data as [|d data]; [reflexivity|]. now rewrite Hev.
Qed.

End RemovedParagraphs.

(* ================================================================== *)
(** * Further runs on concrete inputs *)
(* ================================================================== *)

Lemma configure_from_flags_missing_stemming_witness :
  In (py "apply_lemmatization") (keys [(py "remove_stop_words", false);
                                       (py "apply_lemmatization", false)])
  /\ dict_get [(py "remove_stop_words", false); (py "apply_lemmatization", false)]
       (py "apply_stemming") = None
  /\ exists e w',
      configure_from_flags identity_lower
        [(py "remove_stop_words", false); (py "apply_lemmatization", false)]
        {| stdin := [py "y"; py "y"]; trace := [] |}
      = (Raise e, w')
      /\ (e = KeyError (py "apply_stemming") \/ e = EOFError).
Proof.
  assert (Hin : In (py "apply_lemmatization")
                   (keys [(py "remove_stop_words", false);
                          (py "apply_lemmatization", false)]))
    by (right; left; reflexivity).
  split; [exact Hin|]. split; [reflexivity|].
  exact (@configure_from_flags_missing_stemming identity_lower
           [(py "remove_stop_words", false); (py "apply_lemmatization", false)]
           {| stdin := [py "y"; py "y"]; trace := [] |} Hin eq_refl).
Defined.

Lemma sample_paragraph_keys :
  NoDup (keys (paragraph_flags_dict Sample.no_paragraph_flags))
  /\ ~ In (py "apply_lemmatization") (keys (paragraph_flags_dict Sample.no_paragraph_flags)).
Proof.
  split.
  - cbn. repeat constructor; cbn; intuition discriminate.
  - cbn. intuition discriminate.
Qed.

Lemma configure_from_flags_answers_witness :
  List.length [true; false; false; true]
  = List.length (paragraph_flags_dict Sample.no_paragraph_flags)
  /\ configure_from_flags identity_lower (paragraph_flags_dict Sample.no_paragraph_flags)
       {| stdin := map answer_line [true; false; false; true] ++ [py "left"];
          trace := [] |}
     = (Ok (combine (keys (paragraph_flags_dict Sample.no_paragraph_flags))
              [true; false; false; true]),
        {| stdin := [py "left"];
           trace := [] ++ map prompt_of
                            (keys (paragraph_flags_dict Sample.no_paragraph_flags)) |}).
Proof.
  split; [reflexivity|].
  exact (@configure_from_flags_answers identity_lower
           (paragraph_flags_dict Sample.no_paragraph_flags)
           [true; false; false; true] [py "left"] []
           (proj1 sample_paragraph_keys) (proj2 sample_paragraph_keys) eq_refl).
Defined.

Lemma ask_for_pipeline_first_valid_witness :
  Forall (fun a => valid_choice a = false) [py "4"; py "two"]
  /\ ask_for_pipeline_from ([py "4"; py "two"] ++ py "2" :: [py "n"]) []
     = (Ok CUSTOM_DYNAMIC,
        {| stdin := [py "n"];
           trace := [] ++ flat_map (fun _ => retry_pipeline) [py "4"; py "two"]
                    ++ pipeline_menu |}).
Proof.
  assert (Hbad : Forall (fun a => valid_choice a = false) [py "4"; py "two"])
    by (repeat constructor).
  split; [exact Hbad|].
  exact (proj1 (proj2 (@ask_for_pipeline_first_valid [py "4"; py "two"] [py "n"] []
                         Hbad))).
Defined.

Lemma configure_flag_first_valid_witness :
  Forall (fun a => valid_answer identity_lower a = false) [py "yes"; py " y"]
  /\ configure_flag_from identity_lower (py "Do you want to apply stemming?")
       ([py "yes"; py " y"] ++ answer_line true :: [py "n"]) []
     = (Ok true,
        {| stdin := [py "n"];
           trace := [] ++ flat_map (fun _ => retry_flag (py "Do you want to apply stemming?"))
                            [py "yes"; py " y"]
                    ++ [EvInput (py "Do you want to apply stemming?" ++ py " (y/n) ")] |}).
Proof.
  assert (Hbad : Forall (fun a => valid_answer identity_lower a = false)
                   [py "yes"; py " y"])
    by (repeat constructor).
  split; [exact Hbad|].
  exact (proj1 (@configure_flag_first_valid identity_lower
                  (py "Do you want to apply stemming?") [py "yes"; py " y"] true
                  [py "n"] [] Hbad)).
Defined.

Lemma transform_order_witness :
  nondegenerate (Sample.para " one two three ") = true
  /\ Sample.stopwords_file (py "stopwords.json") = Some [py "de"; py "het"]
  /\ fst (__transform_paragraphs_from_doc (TM := Sample.text_rules) Sample.stopwords_file
            [Sample.para " one two three "] Sample.all_text_flags world0)
     = Ok [ {| obj_text := py "one two three/w/l/s/p"; obj_style := py "Normal" |} ].
Proof.
  split; [reflexivity|]. split; [reflexivity|].
  exact (f_equal fst
           (@transform_order Sample.text_rules Sample.stopwords_file
              (Sample.para " one two three ") [py "de"; py "het"] world0
              eq_refl eq_refl)).
Defined.

Lemma sample_rules_keep_the_same (rule : paragraph_rule) (ps : list Paragraph) :
  fst (paragraph_modifier (PM := Sample.paragraphs_rules) rule ps)
  = fst (paragraph_modifier (PM := Sample.paragraphs_rules_silent) rule ps).
Proof. destruct rule; reflexivity. Qed.

Lemma transform_ignores_removed_witness :
  (forall rule ps,
      fst (paragraph_modifier (PM := Sample.paragraphs_rules) rule ps)
      = fst (paragraph_modifier (PM := Sample.paragraphs_rules_silent) rule ps))
  /\ _transform (PM := Sample.paragraphs_rules) (TM := Sample.text_rules)
       Sample.stopwords_file [(Sample.doc, py "a.docx")] Sample.title_and_stopwords world0
     = _transform (PM := Sample.paragraphs_rules_silent) (TM := Sample.text_rules)
         Sample.stopwords_file [(Sample.doc, py "a.docx")] Sample.title_and_stopwords
         world0.
Proof.
  split; [exact sample_rules_keep_the_same|].
  exact (@transform_ignores_removed Sample.text_rules Sample.stopwords_file
           Sample.paragraphs_rules Sample.paragraphs_rules_silent
           [(Sample.doc, py "a.docx")] Sample.title_and_stopwords world0
           sample_rules_keep_the_same).
Defined.

(* ================================================================== *)
(** * Runs of the walk on concrete dictionaries *)
(* ================================================================== *)

Lemma stemming_first_permutation : Permutation Sample.stemming_first text_flag_names.
Proof.
  unfold Sample.stemming_first, text_flag_names.
  apply perm_skip. apply perm_swap.
Qed.

(** Stemming before lemmatization, the answers no, yes, no: the
    lemmatization question is not put and the flag ends false. *)
Lemma stemming_excludes_lemmatization_witness :
  let flag_dict := text_flags_dict Sample.stemming_first Sample.no_text_flags in
  let w := {| stdin := [py "n"; py "y"; py "n"]; trace := [] |} in
  NoDup (keys flag_dict)
  /\ Forall (fun key => In key flag_identifiers) (keys flag_dict)
  /\ (exists k1 k2 k3,
         keys flag_dict = k1 ++ py "apply_stemming" :: k2
                          ++ py "apply_lemmatization" :: k3)
  /\ match configure_from_flags identity_lower flag_dict w with
     | (Ok d', w') =>
         dict_get d' (py "apply_stemming") = Some true ->
         dict_get d' (py "apply_lemmatization") = Some false
         /\ ~ In (prompt_of (py "apply_lemmatization")) (new_events w w')
     | (Raise _, _) => True
     end.
Proof.
  cbv zeta.
  assert (Hnd : NoDup (keys (text_flags_dict Sample.stemming_first Sample.no_text_flags))).
  { cbn. repeat constructor; cbn; intuition discriminate. }
  assert (Hids : Forall (fun key => In key flag_identifiers)
                   (keys (text_flags_dict Sample.stemming_first Sample.no_text_flags))).
  { cbn. repeat constructor; cbn; tauto. }
  assert (Hord : exists k1 k2 k3,
             keys (text_flags_dict Sample.stemming_first Sample.no_text_flags)
             = k1 ++ py "apply_stemming" :: k2 ++ py "apply_lemmatization" :: k3).
  { exists [py "remove_stop_words"], [], [py "remove_punctuation"]. reflexivity. }
  split; [exact Hnd|]. split; [exact Hids|]. split; [exact Hord|].
  exact (proj2 (proj2 (proj2
           (@stemming_excludes_lemmatization identity_lower Sample.stemming_first
              (text_flags_dict Sample.stemming_first Sample.no_text_flags)
              Sample.no_flags
              {| stdin := [py "n"; py "y"; py "n"]; trace := [] |})))
           Hnd Hids Hord).
Defined.

Example stemming_first_run :
  configure_from_flags identity_lower
    (text_flags_dict Sample.stemming_first Sample.no_text_flags)
    {| stdin := [py "n"; py "y"; py "n"]; trace := [] |}
  = (Ok [ (py "remove_stop_words", false); (py "apply_stemming", true);
          (py "apply_lemmatization", false); (py "remove_punctuation", false) ],
     {| stdin := [];
        trace := [ EvInput (py "Do you want to remove stop words? (y/n) ");
                   EvInput (py "Do you want to apply stemming? (y/n) ");
                   EvInput (py "Do you want to remove punctuation? (y/n) ") ] |}).
Proof. reflexivity. Qed.

(** Lemmatization before stemming, the answers no, yes, yes, no: the guard
    reads the value stemming had at the start, both questions are put and
    the dictionary returned has both true; the text flags built from it
    have stemming only. *)
Example lemmatization_first_run :
  configure_from_flags identity_lower
    (text_flags_dict Sample.lemmatization_first Sample.no_text_flags)
    {| stdin := [py "n"; py "y"; py "y"; py "n"]; trace := [] |}
  = (Ok [ (py "remove_stop_words", false); (py "apply_lemmatization", true);
          (py "apply_stemming", true); (py "remove_punctuation", false) ],
     {| stdin := [];
        trace := [ EvInput (py "Do you want to remove stop words? (y/n) ");
                   EvInput (py "Do you want to apply lemmatization? (y/n) ");
                   EvInput (py "Do you want to apply stemming? (y/n) ");
                   EvInput (py "Do you want to remove punctuation? (y/n) ") ] |})
  /\ TextFlags_kwargs
       [ (py "remove_stop_words", false); (py "apply_lemmatization", true);
         (py "apply_stemming", true); (py "remove_punctuation", false) ]
     = Sample.stem_only.
Proof. split; reflexivity. Qed.

Lemma question_derivation_witness :
  Permutation Sample.stemming_first text_flag_names
  /\ exists segs,
      new_events world0
        (snd (configure_dynamic_etl identity_lower Sample.stemming_first
                Sample.no_flags world0))
      = [EvPrint (repeat 10%N 100); EvPrint (py "--- Define the parameters ---")]
        ++ List.concat segs
      /\ Forall2
           (fun key seg =>
              (seg = [] /\ key = py "apply_lemmatization")
              \/ exists es,
                   seg = EvInput ((py "Do you want to " ++ underscores_to_spaces key
                                   ++ py "?") ++ py " (y/n) ") :: es
                   /\ Forall (question_event (py "Do you want to "
                                              ++ underscores_to_spaces key ++ py "?")) es)
           (firstn (List.length segs)
              (Sample.stemming_first
               ++ keys (paragraph_flags_dict (paragraph_flags Sample.no_flags))))
           segs
      /\ (forall r,
            fst (configure_dynamic_etl identity_lower Sample.stemming_first
                   Sample.no_flags world0) = Ok r ->
            List.length segs = 8).
Proof.
  split; [exact stemming_first_permutation|].
  exact (@question_derivation identity_lower Sample.stemming_first Sample.no_flags
           world0 stemming_first_permutation).
Defined.

(** A user who says yes to stemming only. *)
Lemma configure_from_flags_stemming_first_witness :
  let ans := fun key => PyStr.eqb key (py "apply_stemming") in
  let flag_dict := [(py "remove_stop_words", true)]
                   ++ (py "apply_stemming", false)
                      :: [(py "apply_lemmatization", true);
                          (py "remove_punctuation", true)] in
  NoDup (keys flag_dict)
  /\ ~ In (py "apply_lemmatization") (keys [(py "remove_stop_words", true)])
  /\ configure_from_flags identity_lower flag_dict
       {| stdin := map (fun key => answer_line (ans key)) (asked_keys ans (keys flag_dict))
                   ++ [py "left"];
          trace := [] |}
     = (Ok (map (fun key => (key, answered ans key)) (keys flag_dict)),
        {| stdin := [py "left"];
           trace := [] ++ map prompt_of (asked_keys ans (keys flag_dict)) |}).
Proof.
  cbv zeta.
  assert (Hnd : NoDup (keys ([(py "remove_stop_words", true)]
                             ++ (py "apply_stemming", false)
                                :: [(py "apply_lemmatization", true);
                                    (py "remove_punctuation", true)]))).
  { cbn. repeat constructor; cbn; intuition discriminate. }
  assert (Hlem : ~ In (py "apply_lemmatization") (keys [(py "remove_stop_words", true)])).
  { cbn. intuition discriminate. }
  split; [exact Hnd|]. split; [exact Hlem|].
  exact (@configure_from_flags_stemming_first identity_lower
           (fun key => PyStr.eqb key (py "apply_stemming"))
           [(py "remove_stop_words", true)]
           [(py "apply_lemmatization", true); (py "remove_punctuation", true)]
           false [py "left"] [] Hnd Hlem).
Defined.
